(** * A Slack bot in front of the Perplexity API: dispatch of chat commands

    The repository holds four revisions of one Go program, each a complete
    [package main]:

    - [Dedup]    (src/unnamed/part_000): [handleEventAPI], [handleUserMessage]
                 with the process-wide pair [lastUserInput]/[lastBotResponse];
    - [Links]    (src/main.go, lines 1-235): [handleMessage] with the
                 commands [!perplexity], [!savelink], [!getlink],
                 [!listlinks], [!summarize];
    - [PerUser]  (src/main.go, lines 237-451): the event loop with the
                 per-sender map [lastMessage];
    - [Interactive] (src/main.go, lines 453-680): [handleSlackEvent], which
                 answers interaction callbacks.

    A Go [string] is a sequence of bytes: it is modelled as a [string] whose
    characters are the bytes.  An [error] is modelled by its message.  What
    a handler does to the outside world (messages posted to Slack, requests
    to the completion endpoint, SQL statements) is recorded in a trace. *)

From Stdlib Require Import Ascii NArith ZArith Lia.
From stdpp Require Import gmap strings list.

Set Warnings "-register-all".

(** ** Go's [strings] package, as far as the handlers use it *)

Module GoStrings.

Definition byte (c : ascii) : N := N_of_ascii c.

(** [s[n:]] for [n <= len(s)]. *)
Fixpoint skip (n : nat) (s : string) : string :=
  match n, s with
  | O, _ => s
  | S n', String _ r => skip n' r
  | S _, EmptyString => EmptyString
  end.

(** [strings.HasPrefix(s, prefix)]. *)
Fixpoint HasPrefix (s prefix : string) : bool :=
  match prefix, s with
  | EmptyString, _ => true
  | String p prefix', String c s' => Ascii.eqb c p && HasPrefix s' prefix'
  | String _ _, EmptyString => false
  end.

(** [strings.TrimPrefix(s, prefix)]: [s[len(prefix):]] when [s] starts with
    [prefix], and [s] otherwise. *)
Definition TrimPrefix (s prefix : string) : string :=
  if HasPrefix s prefix then skip (String.length prefix) s else s.

(** [strings.Join(elems, sep)]. *)
Fixpoint Join (elems : list string) (sep : string) : string :=
  match elems with
  | [] => ""
  | [x] => x
  | x :: rest => x +:+ sep +:+ Join rest sep
  end.

(** White space as [unicode.IsSpace] has it, on the UTF-8 encoding: the six
    ASCII characters tab, line feed, vertical tab, form feed, carriage
    return and space ... *)
Definition asciiSpace (c : ascii) : bool :=
  match byte c with
  | 9 | 10 | 11 | 12 | 13 | 32 => true
  | _ => false
  end%N.

(** ... U+0085 and U+00A0, two bytes each ... *)
Definition space2 (c d : ascii) : bool :=
  match byte c, byte d with
  | 194, 133 | 194, 160 => true
  | _, _ => false
  end%N.

(** ... and U+1680, U+2000 to U+200A, U+2028, U+2029, U+202F, U+205F and
    U+3000, three bytes each. *)
Definition space3 (c d e : ascii) : bool :=
  match byte c, byte d with
  | 225, 154 => (byte e =? 128)%N
  | 226, 128 =>
      ((128 <=? byte e)%N && (byte e <=? 138)%N)
      || (byte e =? 168)%N || (byte e =? 169)%N || (byte e =? 175)%N
  | 226, 129 => (byte e =? 159)%N
  | 227, 128 => (byte e =? 128)%N
  | _, _ => false
  end%N.

(** [strings.TrimLeftFunc(s, unicode.IsSpace)]: runes are decoded from the
    front and dropped while they are white space. *)
Fixpoint TrimLeft (s : string) : string :=
  match s with
  | EmptyString => s
  | String c r =>
      if asciiSpace c then TrimLeft r
      else
        match r with
        | String d r' =>
            if space2 c d then TrimLeft r'
            else
              match r' with
              | String e r'' => if space3 c d e then TrimLeft r'' else s
              | EmptyString => s
              end
        | EmptyString => s
        end
  end.

(** The bytes of [s], last byte first. *)
Definition backwards (s : string) : list ascii :=
  rev (String.list_ascii_of_string s).

Definition forwards (l : list ascii) : string :=
  String.string_of_list_ascii (rev l).

(** [strings.TrimRightFunc(s, unicode.IsSpace)] on the bytes read from the
    end: the last rune is dropped while it is white space. *)
Fixpoint dropSpaces (l : list ascii) : list ascii :=
  match l with
  | [] => l
  | e :: r =>
      if asciiSpace e then dropSpaces r
      else
        match r with
        | d :: r' =>
            if space2 d e then dropSpaces r'
            else
              match r' with
              | c :: r'' => if space3 c d e then dropSpaces r'' else l
              | [] => l
              end
        | [] => l
        end
  end.

Definition TrimRight (s : string) : string := forwards (dropSpaces (backwards s)).

(** [strings.TrimSpace(s)]. *)
Definition TrimSpace (s : string) : string := TrimRight (TrimLeft s).

End GoStrings.

Import GoStrings.

(** ** The outside world *)

(** An [error], by its message. *)
Definition error := string.

(** A decoded JSON value, as [encoding/json] stores it in an
    [interface{}]: [nil], [bool], [float64] (kept as its literal), [string],
    [[]interface{}] and [map[string]interface{}]. A map lists its bindings,
    each key once. *)
Inductive JSON :=
| JNull
| JBool (b : bool)
| JNumber (literal : string)
| JString (s : string)
| JArray (elems : list JSON)
| JObject (fields : list (string * JSON)).

(** [m[key]], [None] for the [nil] interface that a missing key yields. *)
Fixpoint jget (key : string) (m : list (string * JSON)) : option JSON :=
  match m with
  | [] => None
  | (k, v) :: m' => if String.eqb k key then Some v else jget key m'
  end.

(** What happens to the one HTTP request a handler sends: [client.Do]
    fails, or there is a response, of which [io.ReadAll] may fail and whose
    bytes [json.Unmarshal] rejects (with an error, the target left [nil]) or
    decodes into a map ([nil], the empty map, for the body [null]). *)
Inductive HttpOutcome :=
| DoError (e : error)
| Response (readErr : option error) (decoded : error + list (string * JSON)).

Record Item := { Title : string; Description : string; Link : string }.

(** What [gofeed]'s parser returns for a URL. *)
Inductive FeedOutcome :=
| FeedError (e : error)
| Feed (items : list Item).

(** The world's answers during one invocation of a handler. An invocation
    sends at most one HTTP request, one SQL query, one SQL statement and
    one feed request. [random] is the row that [ORDER BY RANDOM()] puts
    first. An error of [PostMessage] is only logged and is left out. *)
Record World := {
  http : HttpOutcome;
  queryErr : option error;
  execErr : option error;
  random : nat;
  feed : FeedOutcome
}.

(** The calls a handler makes to the outside, in the order made. *)
Inductive Effect :=
| PostMessage (channel text : string)
| CompletionRequest (content : string)
| Exec_INSERT (url : string)
| Query_SELECT_all
| Query_SELECT_random
| Exec_DELETE_id (id : Z)
| Exec_DELETE_url (url : string)
| ParseURL (url : string).

Definition posts (t : list Effect) : list (string * string) :=
  omap (fun e => match e with PostMessage c m => Some (c, m) | _ => None end) t.

Definition requests (t : list Effect) : list string :=
  omap (fun e => match e with CompletionRequest q => Some q | _ => None end) t.

Definition inserts (t : list Effect) : list string :=
  omap (fun e => match e with Exec_INSERT u => Some u | _ => None end) t.

(** The table [hyperlinks (id INTEGER PRIMARY KEY AUTOINCREMENT, url TEXT)]:
    its rows in row order, and the largest id ever given out, which
    [AUTOINCREMENT] keeps in [sqlite_sequence]. *)
Record Table := { rows : list (Z * string); seq : Z }.

(** [INSERT INTO hyperlinks (url) VALUES (?)]. *)
Definition INSERT (url : string) (t : Table) : Table :=
  {| rows := rows t ++ [((seq t + 1)%Z, url)]; seq := (seq t + 1)%Z |}.

(** [DELETE FROM hyperlinks WHERE id = ?]. *)
Definition DELETE_id (id : Z) (t : Table) : Table :=
  {| rows := filter (fun r => r.1 ≠ id) (rows t); seq := seq t |}.

(** [DELETE FROM hyperlinks WHERE url = ?]. *)
Definition DELETE_url (url : string) (t : Table) : Table :=
  {| rows := filter (fun r => r.2 ≠ url) (rows t); seq := seq t |}.

(** [SELECT ... FROM hyperlinks ORDER BY RANDOM() LIMIT 1]. *)
Definition SELECT_random (n : nat) (t : Table) : option (Z * string) :=
  rows t !! (n mod length (rows t)).

(** [SELECT url FROM hyperlinks]. *)
Definition SELECT_all (t : Table) : list string := (rows t).*2.

Definition ErrNoRows : error := "sql: no rows in result set".

Definition LF : string := String (ascii_of_nat 10) "".

(** What a call returns: a value, an error, or it panics. *)
Inductive Result (A : Type) :=
| Ok (a : A)
| Err (e : error)
| Panics (msg : string).
Arguments Ok {A} a.
Arguments Err {A} e.
Arguments Panics {A} msg.

(** How a handler ends: it returns, or the goroutine panics, which ends
    the process, or it calls [os.Exit]; each time with the state reached. *)
Inductive Outcome (S : Type) :=
| Done (s : S)
| Crash (s : S) (msg : string)
| Exit (s : S) (code : Z).
Arguments Done {S} s.
Arguments Crash {S} s msg.
Arguments Exit {S} s code.

(** [slack.MessageEvent], the fields the handlers read. *)
Record MessageEvent := {
  Channel : string;
  User : string;
  Text : string;
  BotID : string
}.

(** ** src/unnamed/part_000: commands, and completion with one remembered input *)

Module Dedup.

(** The package variables [lastUserInput] and [lastBotResponse], the table
    behind [db], and the calls made so far. *)
Record State := {
  lastUserInput : string;
  lastBotResponse : string;
  db : Table;
  trace : list Effect
}.

(** Both strings hold Go's zero value when the process starts; the table is
    what the file [hyperlinks.db] held. *)
Definition start (t : Table) : State :=
  {| lastUserInput := ""; lastBotResponse := ""; db := t; trace := [] |}.

Definition emit (e : Effect) (s : State) : State :=
  {| lastUserInput := lastUserInput s; lastBotResponse := lastBotResponse s;
     db := db s; trace := trace s ++ [e] |}.

Definition set_db (t : Table) (s : State) : State :=
  {| lastUserInput := lastUserInput s; lastBotResponse := lastBotResponse s;
     db := t; trace := trace s |}.

Definition set_lastUserInput (x : string) (s : State) : State :=
  {| lastUserInput := x; lastBotResponse := lastBotResponse s;
     db := db s; trace := trace s |}.

Definition set_lastBotResponse (x : string) (s : State) : State :=
  {| lastUserInput := lastUserInput s; lastBotResponse := x;
     db := db s; trace := trace s |}.

Definition slackSendMessage (channelID message : string) (s : State) : State :=
  emit (PostMessage channelID message) s.

(** The decoding at the end of [PerplexityAPI]: three assertions with the
    comma-ok form, and between them [choices[0].(map[string]interface{})]
    without it, which panics on anything that is not a map. *)
Definition content_of (result : list (string * JSON)) : Result string :=
  match jget "choices" result with
  | Some (JArray (choice :: _)) =>
      match choice with
      | JObject fields =>
          match jget "message" fields with
          | Some (JObject message) =>
              match jget "content" message with
              | Some (JString content) => Ok content
              | _ => Err "invalid response format"
              end
          | _ => Err "invalid response format"
          end
      | _ => Panics "interface conversion: interface {} is not map[string]interface {}"
      end
  | _ => Err "invalid response format"
  end.

Definition PerplexityAPI (w : World) (input : string) (s : State)
  : Result string * State :=
  let s := emit (CompletionRequest input) s in
  match http w with
  | DoError e => (Err e, s)
  | Response (Some e) _ => (Err e, s)
  | Response None (inl e) => (Err e, s)
  | Response None (inr result) => (content_of result, s)
  end.

Definition saveHyperlink (w : World) (url : string) (s : State)
  : option error * State :=
  let s := emit (Exec_INSERT url) s in
  match execErr w with
  | Some e => (Some e, s)
  | None => (None, set_db (INSERT url (db s)) s)
  end.

Definition listHyperlinks (w : World) (s : State)
  : (error + list string) * State :=
  let s := emit Query_SELECT_all s in
  match queryErr w with
  | Some e => (inl e, s)
  | None => (inr (SELECT_all (db s)), s)
  end.

Definition getRandomHyperlink (w : World) (s : State)
  : (error + string) * State :=
  let s := emit Query_SELECT_random s in
  match queryErr w with
  | Some e => (inl e, s)
  | None =>
      match SELECT_random (random w) (db s) with
      | None => (inl ErrNoRows, s)
      | Some (id, url) =>
          let s := emit (Exec_DELETE_id id) s in
          match execErr w with
          | Some e => (inl e, s)
          | None => (inr url, set_db (DELETE_id id (db s)) s)
          end
      end
  end.

Definition summarizeArticle (w : World) (url : string) (s : State)
  : (error + string) * State :=
  let s := emit (ParseURL url) s in
  match feed w with
  | FeedError e => (inl e, s)
  | Feed [] => (inl "no items found in the feed", s)
  | Feed (article :: _) =>
      (inr ("Title: " +:+ Title article +:+ LF +:+ LF +:+ "Description: "
              +:+ Description article), s)
  end.

Definition handleUserMessage (w : World) (ev : MessageEvent) (s : State)
  : Outcome State :=
  let text := TrimSpace (Text ev) in
  if HasPrefix text "!save " then
    let url := TrimPrefix text "!save " in
    match saveHyperlink w url s with
    | (Some err, s) =>
        Done (slackSendMessage (Channel ev) ("Error saving hyperlink: " +:+ err) s)
    | (None, s) =>
        Done (slackSendMessage (Channel ev) "Hyperlink saved successfully!" s)
    end
  else if String.eqb text "!list" then
    match listHyperlinks w s with
    | (inl err, s) =>
        Done (slackSendMessage (Channel ev) ("Error listing hyperlinks: " +:+ err) s)
    | (inr links, s) =>
        Done (slackSendMessage (Channel ev)
                ("Saved hyperlinks:" +:+ LF +:+ Join links LF) s)
    end
  else if String.eqb text "!random" then
    match getRandomHyperlink w s with
    | (inl err, s) =>
        Done (slackSendMessage (Channel ev)
                ("Error getting random hyperlink: " +:+ err) s)
    | (inr link, s) =>
        Done (slackSendMessage (Channel ev) ("Random hyperlink: " +:+ link) s)
    end
  else if String.eqb text "!summarize" then
    match getRandomHyperlink w s with
    | (inl err, s) =>
        Done (slackSendMessage (Channel ev)
                ("Error getting random hyperlink: " +:+ err) s)
    | (inr link, s) =>
        match summarizeArticle w link s with
        | (inl err, s) =>
            Done (slackSendMessage (Channel ev)
                    ("Error summarizing article: " +:+ err) s)
        | (inr summary, s) =>
            Done (slackSendMessage (Channel ev)
                    ("Summary of " +:+ link +:+ ":" +:+ LF +:+ summary) s)
        end
    end
  else if negb (String.eqb text (lastUserInput s)) then
    let s := set_lastUserInput text s in
    match PerplexityAPI w text s with
    | (Panics msg, s) => Crash s msg
    | (Err err, s) => Done (slackSendMessage (Channel ev) ("Error: " +:+ err) s)
    | (Ok response, s) =>
        let s := set_lastBotResponse response s in
        Done (slackSendMessage (Channel ev) response s)
    end
  else
    Done (slackSendMessage (Channel ev) (lastBotResponse s) s).

(** [handleEventAPI], for an inner event that is a [*slack.MessageEvent]. *)
Definition handleEventAPI (w : World) (ev : MessageEvent) (s : State)
  : Outcome State :=
  if String.eqb (BotID ev) "" then handleUserMessage w ev s else Done s.

(** The loop of [main] over the message events received, each with the
    world's answers while it is handled; a panic ends the process. *)
Fixpoint run (evs : list (World * MessageEvent)) (s : State) : Outcome State :=
  match evs with
  | [] => Done s
  | (w, ev) :: rest =>
      match handleEventAPI w ev s with
      | Done s' => run rest s'
      | stopped => stopped
      end
  end.

End Dedup.

(** ** src/main.go, first program: the commands on saved links *)

Module Links.

Record State := { db : Table; trace : list Effect }.

Definition start (t : Table) : State := {| db := t; trace := [] |}.

Definition emit (e : Effect) (s : State) : State :=
  {| db := db s; trace := trace s ++ [e] |}.

Definition set_db (t : Table) (s : State) : State :=
  {| db := t; trace := trace s |}.

Definition slackSendMessage (channel message : string) (s : State) : State :=
  emit (PostMessage channel message) s.

(** The nested comma-ok assertions of [PerplexityAPI]. *)
Definition content_of (result : list (string * JSON)) : option string :=
  match jget "choices" result with
  | Some (JArray (JObject choice :: _)) =>
      match jget "message" choice with
      | Some (JObject message) =>
          match jget "content" message with
          | Some (JString content) => Some content
          | _ => None
          end
      | _ => None
      end
  | _ => None
  end.

(** The errors of [io.ReadAll] and [json.Unmarshal] are dropped; after a
    failed [Unmarshal] the map is [nil]. *)
Definition PerplexityAPI (w : World) (query : string) (s : State)
  : string * State :=
  let s := emit (CompletionRequest query) s in
  match http w with
  | DoError e => ("Error: " +:+ e, s)
  | Response _ decoded =>
      let result := match decoded with inl _ => [] | inr m => m end in
      match content_of result with
      | Some content => (content, s)
      | None => ("No response from Perplexity API", s)
      end
  end.

Definition saveHyperlink (w : World) (url : string) (s : State)
  : option error * State :=
  let s := emit (Exec_INSERT url) s in
  match execErr w with
  | Some e => (Some e, s)
  | None => (None, set_db (INSERT url (db s)) s)
  end.

Definition getRandomHyperlink (w : World) (s : State)
  : (error + string) * State :=
  let s := emit Query_SELECT_random s in
  match queryErr w with
  | Some e => (inl e, s)
  | None =>
      match SELECT_random (random w) (db s) with
      | None => (inr "", s)
      | Some (_, url) =>
          let s := emit (Exec_DELETE_url url) s in
          match execErr w with
          | Some e => (inl e, s)
          | None => (inr url, set_db (DELETE_url url (db s)) s)
          end
      end
  end.

Definition getAllHyperlinks (w : World) (s : State)
  : (error + list string) * State :=
  let s := emit Query_SELECT_all s in
  match queryErr w with
  | Some e => (inl e, s)
  | None => (inr (SELECT_all (db s)), s)
  end.

Definition fetchRSS (w : World) (url : string) (s : State)
  : (error + string) * State :=
  let s := emit (ParseURL url) s in
  match feed w with
  | FeedError e => (inl e, s)
  | Feed (item :: _) =>
      (inr ("Title: " +:+ Title item +:+ LF +:+ LF +:+ "Description: "
              +:+ Description item), s)
  | Feed [] => (inl "no items found in the feed", s)
  end.

Definition handleMessage (w : World) (event : MessageEvent) (s : State) : State :=
  let text := TrimSpace (Text event) in
  if HasPrefix text "!perplexity" then
    let query := TrimPrefix text "!perplexity" in
    let '(response, s) := PerplexityAPI w query s in
    slackSendMessage (Channel event) response s
  else if HasPrefix text "!savelink" then
    let url := TrimPrefix text "!savelink" in
    match saveHyperlink w url s with
    | (Some err, s) =>
        slackSendMessage (Channel event) ("Error saving hyperlink: " +:+ err) s
    | (None, s) =>
        slackSendMessage (Channel event) "Hyperlink saved successfully" s
    end
  else if String.eqb text "!getlink" then
    match getRandomHyperlink w s with
    | (inl err, s) =>
        slackSendMessage (Channel event) ("Error getting hyperlink: " +:+ err) s
    | (inr url, s) =>
        if String.eqb url "" then
          slackSendMessage (Channel event) "No hyperlinks available" s
        else
          slackSendMessage (Channel event) ("Random hyperlink: " +:+ url) s
    end
  else if String.eqb text "!listlinks" then
    match getAllHyperlinks w s with
    | (inl err, s) =>
        slackSendMessage (Channel event) ("Error listing hyperlinks: " +:+ err) s
    | (inr links, s) =>
        if (length links =? 0)%nat then
          slackSendMessage (Channel event) "No hyperlinks saved" s
        else
          slackSendMessage (Channel event)
            ("Saved hyperlinks:" +:+ LF +:+ Join links LF) s
    end
  else if String.eqb text "!summarize" then
    match getRandomHyperlink w s with
    | (inl err, s) =>
        slackSendMessage (Channel event) ("Error getting hyperlink: " +:+ err) s
    | (inr url, s) =>
        if String.eqb url "" then
          slackSendMessage (Channel event) "No hyperlinks available" s
        else
          match fetchRSS w url s with
          | (inl err, s) =>
              slackSendMessage (Channel event) ("Error fetching article: " +:+ err) s
          | (inr article, s) =>
              let '(summary, s) :=
                PerplexityAPI w ("Summarize this article: " +:+ article) s in
              slackSendMessage (Channel event)
                ("Summary of article from " +:+ url +:+ ":" +:+ LF +:+ LF +:+ summary) s
          end
    end
  else s.

(** The body of the loop in [main], lines 61-78, for an event that carries a
    [*slack.MessageEvent]: the event goes to [handleMessage] whatever its
    [BotID]. *)
Definition dispatch (w : World) (messageEvent : MessageEvent) (s : State) : State :=
  handleMessage w messageEvent s.

End Links.

(** ** src/main.go, second program: every message goes to the endpoint *)

Module PerUser.

(** The map [lastMessage] of the listening goroutine, and the calls made. *)
Record State := { lastMessage : gmap string string; trace : list Effect }.

Definition start : State := {| lastMessage := ∅; trace := [] |}.

Definition emit (e : Effect) (s : State) : State :=
  {| lastMessage := lastMessage s; trace := trace s ++ [e] |}.

(** [lastMessage[user]], the zero value for a missing key. *)
Definition last (user : string) (s : State) : string :=
  default "" (lastMessage s !! user).

(** What [PerplexityAPI] and the decoding into [PerplexityResponse] give:
    an error of the request, an error of [json.Unmarshal], or the
    [Message.Content] of each element of [Choices]. *)
Inductive Reply :=
| ApiError (e : error)
| Undecodable (e : error)
| Choices (contents : list string).

(** [SlackSend] posts to the channel [general]. *)
Definition SlackSend (text : string) (s : State) : State :=
  emit (PostMessage "general" text) s.

(** The body of the loop, lines 403-443, for a callback event that carries
    a [*slackevents.MessageEvent]. [PPLX_API_KEY] is the environment
    variable [PerplexityAPI] reads. *)
Definition onMessage (PPLX_API_KEY : string) (r : Reply) (ev : MessageEvent)
    (s : State) : Outcome State :=
  if negb (String.eqb (BotID ev) "") then Done s
  else if String.eqb PPLX_API_KEY "" then Exit s 1
  else
    let s := emit (CompletionRequest (Text ev)) s in
    match r with
    | ApiError _ => Done s
    | Undecodable _ => Done s
    | Choices contents =>
        if negb (String.eqb (Text ev) (last (User ev) s)) then
          match contents with
          | content :: _ =>
              let s := SlackSend content s in
              Done {| lastMessage := <[User ev := Text ev]> (lastMessage s);
                      trace := trace s |}
          | [] => Done s
          end
        else Done s
    end.

End PerUser.

(** ** src/main.go, third program: the commands on interaction callbacks *)

Module Interactive.

Record State := { db : Table; trace : list Effect }.

Definition start (t : Table) : State := {| db := t; trace := [] |}.

Definition emit (e : Effect) (s : State) : State :=
  {| db := db s; trace := trace s ++ [e] |}.

Definition set_db (t : Table) (s : State) : State :=
  {| db := t; trace := trace s |}.

(** [callback.Type], which the handler compares with
    [slack.InteractionTypeMessage] only. *)
Inductive InteractionType :=
| InteractionTypeMessage
| InteractionTypeOther (name : string).

(** [slack.InteractionCallback], the fields the handler reads:
    [callback.Type], [callback.Message.Text] and [callback.Channel.ID]. *)
Record InteractionCallback := {
  Type_ : InteractionType;
  MessageText : string;
  ChannelID : string
}.

(** What the request of [PerplexityAPI] and the decoding of the body into
    [PerplexityResponse] give: an error, or the field [Content] (the empty
    string when the body has no [content]). *)
Inductive Answer :=
| Failed (e : error)
| Answered (content : string).

Definition PerplexityAPI (a : Answer) (content : string) (s : State)
  : (error + string) * State :=
  let s := emit (CompletionRequest content) s in
  match a with
  | Failed e => (inl e, s)
  | Answered c => (inr c, s)
  end.

(** The error that [PostMessage] returns is dropped by every caller. *)
Definition slackSendMessage (channelID message : string) (s : State) : State :=
  emit (PostMessage channelID message) s.

Definition storage (w : World) (url : string) (s : State)
  : option error * State :=
  let s := emit (Exec_INSERT url) s in
  match execErr w with
  | Some e => (Some e, s)
  | None => (None, set_db (INSERT url (db s)) s)
  end.

Definition fetchRandomLink (w : World) (s : State)
  : (error + string) * State :=
  let s := emit Query_SELECT_random s in
  match queryErr w with
  | Some e => (inl e, s)
  | None =>
      match SELECT_random (random w) (db s) with
      | None => (inl ErrNoRows, s)
      | Some (id, url) =>
          let s := emit (Exec_DELETE_id id) s in
          match execErr w with
          | Some e => (inl e, s)
          | None => (inr url, set_db (DELETE_id id (db s)) s)
          end
      end
  end.

Definition listAllLinks (w : World) (s : State)
  : (error + list string) * State :=
  let s := emit Query_SELECT_all s in
  match queryErr w with
  | Some e => (inl e, s)
  | None => (inr (SELECT_all (db s)), s)
  end.

(** The loop of [fetchRSSSummary] over [feed.Items]. *)
Fixpoint summary_of (items : list Item) (summary : string) : string :=
  match items with
  | [] => summary
  | item :: rest =>
      summary_of rest
        (summary +:+ ("Title: " +:+ Title item +:+ LF +:+ "Link: "
                       +:+ Link item +:+ LF))
  end.

Definition fetchRSSSummary (w : World) (url : string) (s : State)
  : (error + string) * State :=
  let s := emit (ParseURL url) s in
  match feed w with
  | FeedError e => (inl e, s)
  | Feed items => (inr (summary_of items ""), s)
  end.

Definition handleSlackEvent (a : Answer) (w : World) (callback : InteractionCallback)
    (s : State) : State :=
  match Type_ callback with
  | InteractionTypeMessage =>
      let messageText := MessageText callback in
      let channelID := ChannelID callback in
      if String.eqb messageText "!listlinks" then
        match listAllLinks w s with
        | (inl err, s) =>
            slackSendMessage channelID ("Error listing links: " +:+ err) s
        | (inr urls, s) =>
            slackSendMessage channelID ("Saved Hyperlinks:" +:+ LF +:+ Join urls LF) s
        end
      else if String.eqb messageText "!randomlink" then
        match fetchRandomLink w s with
        | (inl err, s) =>
            slackSendMessage channelID ("Error fetching random link: " +:+ err) s
        | (inr url, s) => slackSendMessage channelID ("Random Link: " +:+ url) s
        end
      else if HasPrefix messageText "!save " then
        let url := TrimPrefix messageText "!save " in
        match storage w url s with
        | (Some err, s) =>
            slackSendMessage channelID ("Error saving link: " +:+ err) s
        | (None, s) => slackSendMessage channelID ("Link saved: " +:+ url) s
        end
      else if HasPrefix messageText "!rss " then
        let url := TrimPrefix messageText "!rss " in
        match fetchRSSSummary w url s with
        | (inl err, s) =>
            slackSendMessage channelID ("Error fetching RSS feed: " +:+ err) s
        | (inr summary, s) =>
            slackSendMessage channelID ("RSS Summary:" +:+ LF +:+ summary) s
        end
      else
        match PerplexityAPI a messageText s with
        | (inl err, s) =>
            slackSendMessage channelID
              ("Error communicating with Perplexity API: " +:+ err) s
        | (inr response, s) => slackSendMessage channelID response s
        end
  | InteractionTypeOther _ => s
  end.

End Interactive.

(** ** Properties stated over the models *)

(** The command forms of the dispatch rules: the prefixes ["!save "] and
    ["!savelink "] and the bare ["!savelink"], the exact words for listing
    and for a random link, ["!summarize"], the prefix ["!rss "] and the
    prefix ["!perplexity"]. *)
Definition command_form (text : string) : bool :=
  HasPrefix text "!save " || HasPrefix text "!savelink "
  || String.eqb text "!savelink"
  || String.eqb text "!list" || String.eqb text "!listlinks"
  || String.eqb text "!random" || String.eqb text "!randomlink"
  || String.eqb text "!getlink"
  || String.eqb text "!summarize"
  || HasPrefix text "!rss "
  || HasPrefix text "!perplexity".

(** The endpoint's answer does not make [Dedup.PerplexityAPI] panic. *)
Definition no_panic (w : World) : Prop :=
  forall result msg,
    http w = Response None (inr result) -> Dedup.content_of result <> Panics msg.

(** The value found under [choices[0].message.content], when each step of
    that path is there with the type the path needs. *)
Definition content_path (result : list (string * JSON)) : option string :=
  match jget "choices" result with
  | Some (JArray (JObject choice :: _)) =>
      match jget "message" choice with
      | Some (JObject message) =>
          match jget "content" message with
          | Some (JString content) => Some content
          | _ => None
          end
      | _ => None
      end
  | _ => None
  end.

(** Ids are unique and none is above the recorded sequence value. *)
Definition table_ok (t : Table) : Prop :=
  NoDup (rows t).*1 /\ Forall (fun r => (r.1 <= seq t)%Z) (rows t).

(** Sample data. *)
Definition no_rows : Table := {| rows := []; seq := 0 |}.

Definition answer (content : string) : list (string * JSON) :=
  [("id", JString "c0");
   ("choices",
    JArray [JObject [("index", JNumber "0");
                     ("message", JObject [("role", JString "assistant");
                                          ("content", JString content)])]])].

Definition answering (content : string) : World :=
  {| http := Response None (inr (answer content));
     queryErr := None; execErr := None; random := 0; feed := Feed [] |}.

Definition unreachable : World :=
  {| http := DoError "dial tcp: connection refused";
     queryErr := None; execErr := None; random := 0; feed := Feed [] |}.

Definition message (user text : string) : MessageEvent :=
  {| Channel := "C01"; User := user; Text := text; BotID := "" |}.

Definition bot_message (text : string) : MessageEvent :=
  {| Channel := "C01"; User := "U0B"; Text := text; BotID := "B01" |}.

(** The state an invocation ends in. *)
Definition final {S : Type} (o : Outcome S) : S :=
  match o with
  | Done s => s
  | Crash s _ => s
  | Exit s _ => s
  end.

Definition two_links_one_url : Table :=
  {| rows := [(1%Z, "http://a/feed"); (2%Z, "http://a/feed"); (3%Z, "http://b/feed")];
     seq := 3 |}.

(** A body with [choices] whose first element is not an object. *)
Definition odd_choice : World :=
  {| http := Response None (inr [("choices", JArray [JString "none"])]);
     queryErr := None; execErr := None; random := 0; feed := Feed [] |}.

(** What [Dedup.PerplexityAPI] returns in a world. *)
Definition completion (w : World) : Result string :=
  match http w with
  | DoError e => Err e
  | Response (Some e) _ => Err e
  | Response None (inl e) => Err e
  | Response None (inr result) => Dedup.content_of result
  end.

(** The trimmed text of a message reaches the last branch of
    [handleUserMessage]. *)
Definition default_intent (ev : MessageEvent) : Prop :=
  let text := TrimSpace (Text ev) in
  HasPrefix text "!save " = false /\
  text <> "!list" /\ text <> "!random" /\ text <> "!summarize".

Definition ub_said_x : PerUser.State :=
  {| PerUser.lastMessage := {["UB" := "x"]}; PerUser.trace := [] |}.

(** The texts that [handleUserMessage] takes for a command. *)
Definition Dedup_command (text : string) : bool :=
  HasPrefix text "!save " || String.eqb text "!list"
  || String.eqb text "!random" || String.eqb text "!summarize".

(** The texts that [handleMessage] takes for a command. *)
Definition Links_command (text : string) : bool :=
  HasPrefix text "!perplexity" || HasPrefix text "!savelink"
  || String.eqb text "!getlink" || String.eqb text "!listlinks"
  || String.eqb text "!summarize".

(** A message of a user. *)
Definition from_user (p : World * MessageEvent) : Prop := BotID p.2 = "".

(** A message of a user that says [!save url], handled while [INSERT]
    works. *)
Definition saves (p : World * MessageEvent) (url : string) : Prop :=
  BotID p.2 = "" /\ TrimSpace (Text p.2) = "!save " +:+ url /\ execErr p.1 = None.

(** The text of [fetchRSSSummary] for one item. *)
Definition entry (item : Item) : string :=
  "Title: " +:+ Title item +:+ LF +:+ "Link: " +:+ Link item +:+ LF.

Definition one_link : Table := {| rows := [(7%Z, "http://a/feed")]; seq := 9 |}.

Definition failing_feed : World :=
  {| http := DoError "dial tcp: connection refused";
     queryErr := None; execErr := None; random := 5;
     feed := FeedError "http error: 404 Not Found" |}.

Definition locked : World :=
  {| http := DoError "dial tcp: connection refused";
     queryErr := None; execErr := Some "database is locked"; random := 0;
     feed := Feed [] |}.

Definition said (text : string) : Interactive.InteractionCallback :=
  {| Interactive.Type_ := Interactive.InteractionTypeMessage;
     Interactive.MessageText := text;
     Interactive.ChannelID := "C01" |}.

Definition two_items : World :=
  {| http := DoError "dial tcp: connection refused";
     queryErr := None; execErr := None; random := 0;
     feed := Feed [ {| Title := "One"; Description := "first"; Link := "http://a/1" |};
                    {| Title := "Two"; Description := "second"; Link := "http://a/2" |} ] |}.

(** ** Facts about the string functions *)

Section StringFacts.

Lemma HasPrefix_split (prefix s : string) :
  HasPrefix s prefix = true -> s = prefix +:+ TrimPrefix s prefix.
Proof.
  unfold TrimPrefix. intros H. rewrite H. revert s H.
  induction prefix as [|p prefix IH]; intros s H; [reflexivity|].
  destruct s as [|c s]; [discriminate|]. simpl in H.
  apply andb_prop in H as [Hc Hs]. apply Ascii.eqb_eq in Hc. subst c.
  change (String p s = String p (prefix +:+ skip (String.length prefix) s)).
  f_equal. now apply IH.
Qed.

Lemma HasPrefix_false_TrimPrefix (prefix s : string) :
  HasPrefix s prefix = false -> TrimPrefix s prefix = s.
Proof. unfold TrimPrefix. now intros ->. Qed.

(** What [dropSpaces] leaves does not start with an ASCII white space
    character, that is: the trimmed string does not end with one. *)
Definition head_not_space (l : list ascii) : Prop :=
  match l with
  | [] => True
  | e :: _ => asciiSpace e = false
  end.

Lemma dropSpaces_head_bounded (n : nat) :
  forall l, length l <= n -> head_not_space (dropSpaces l).
Proof.
  induction n as [|n IH]; intros l Hl.
  - destruct l; [exact I | simpl in Hl; lia].
  - destruct l as [|e r]; [exact I|]. simpl in Hl. simpl.
    destruct (asciiSpace e) eqn:He; [apply IH; lia|].
    destruct r as [|d r']; [exact He|]. simpl in Hl.
    destruct (space2 d e); [apply IH; lia|].
    destruct r' as [|c r'']; [exact He|]. simpl in Hl.
    destruct (space3 c d e); [apply IH; lia | exact He].
Qed.

Lemma dropSpaces_head (l : list ascii) : head_not_space (dropSpaces l).
Proof. now apply (dropSpaces_head_bounded (length l)). Qed.

Lemma backwards_forwards (l : list ascii) : backwards (forwards l) = l.
Proof.
  unfold backwards, forwards.
  now rewrite String.list_ascii_of_string_of_list_ascii, rev_involutive.
Qed.

Lemma TrimSpace_last (s : string) : head_not_space (backwards (TrimSpace s)).
Proof.
  unfold TrimSpace, TrimRight. rewrite backwards_forwards. apply dropSpaces_head.
Qed.

(** A trimmed text that starts with ["!save "] goes on after it. *)
Lemma TrimSpace_save_argument (s : string) :
  HasPrefix (TrimSpace s) "!save " = true ->
  TrimPrefix (TrimSpace s) "!save " <> "".
Proof.
  intros H E. apply HasPrefix_split in H. rewrite E in H.
  pose proof (TrimSpace_last s) as L. rewrite H in L. vm_compute in L. discriminate L.
Qed.

End StringFacts.

(** ** The traces of single calls *)

Section Traces.

Lemma posts_snoc (t : list Effect) (e : Effect) :
  posts (t ++ [e]) =
  posts t ++ match e with PostMessage c m => [(c, m)] | _ => [] end.
Proof. unfold posts. rewrite omap_app. now destruct e. Qed.

Lemma requests_snoc (t : list Effect) (e : Effect) :
  requests (t ++ [e]) =
  requests t ++ match e with CompletionRequest q => [q] | _ => [] end.
Proof. unfold requests. rewrite omap_app. now destruct e. Qed.

Lemma inserts_snoc (t : list Effect) (e : Effect) :
  inserts (t ++ [e]) =
  inserts t ++ match e with Exec_INSERT u => [u] | _ => [] end.
Proof. unfold inserts. rewrite omap_app. now destruct e. Qed.

End Traces.

Ltac trace_simpl :=
  cbn [Dedup.trace Dedup.emit Dedup.slackSendMessage Dedup.set_db
       Dedup.set_lastUserInput Dedup.set_lastBotResponse
       Dedup.lastUserInput Dedup.lastBotResponse Dedup.db
       Links.trace Links.emit Links.slackSendMessage Links.set_db Links.db
       PerUser.trace PerUser.emit PerUser.SlackSend PerUser.lastMessage];
  rewrite ?posts_snoc, ?requests_snoc, ?inserts_snoc, ?app_nil_r, <- ?app_assoc;
  cbn [app].

(** ** The default branch of [handleUserMessage] *)

(** The default branch, for a text that is not the remembered one: the text
    is remembered, one request carries it, and unless the decoding panics
    one message goes to the channel. *)
Lemma handleUserMessage_default (w : World) (ev : MessageEvent) (s : Dedup.State) :
  let text := TrimSpace (Text ev) in
  HasPrefix text "!save " = false ->
  text <> "!list" -> text <> "!random" -> text <> "!summarize" ->
  Dedup.handleUserMessage w ev s =
    if negb (String.eqb text (Dedup.lastUserInput s)) then
      match Dedup.PerplexityAPI w text (Dedup.set_lastUserInput text s) with
      | (Panics msg, s) => Crash s msg
      | (Err err, s) =>
          Done (Dedup.slackSendMessage (Channel ev) ("Error: " +:+ err) s)
      | (Ok response, s) =>
          Done (Dedup.slackSendMessage (Channel ev) response
                  (Dedup.set_lastBotResponse response s))
      end
    else Done (Dedup.slackSendMessage (Channel ev) (Dedup.lastBotResponse s) s).
Proof.
  intros text Hsave Hlist Hrandom Hsum. unfold Dedup.handleUserMessage.
  fold text. rewrite Hsave.
  apply String.eqb_neq in Hlist, Hrandom, Hsum.
  now rewrite Hlist, Hrandom, Hsum.
Qed.

(** How [Dedup.PerplexityAPI] ends: one request is recorded, nothing else
    of the state changes. *)
Lemma PerplexityAPI_state (w : World) (input : string) (s : Dedup.State) :
  (Dedup.PerplexityAPI w input s).2 = Dedup.emit (CompletionRequest input) s.
Proof.
  unfold Dedup.PerplexityAPI.
  now destruct (http w) as [e|[e|] [e'|result]].
Qed.

Lemma PerplexityAPI_no_panic (w : World) (input : string) (s : Dedup.State) :
  no_panic w -> forall msg, (Dedup.PerplexityAPI w input s).1 <> Panics msg.
Proof.
  intros Hw msg. unfold Dedup.PerplexityAPI.
  destruct (http w) as [e|[e|] [e'|result]] eqn:Hh; try discriminate.
  cbn. now apply Hw.
Qed.

(** C1, as the code has it: a message from a user whose trimmed text is
    none of the commands of [handleUserMessage] gets one message back on
    its channel, as long as the decoding of the answer does not panic. The
    endpoint is asked, with the whole trimmed text, when the text differs
    from the remembered input; when it equals it, the endpoint is not asked
    and the message is the remembered response. *)
Theorem C1_default_completion (w : World) (ev : MessageEvent) (s : Dedup.State) :
  let text := TrimSpace (Text ev) in
  BotID ev = "" ->
  HasPrefix text "!save " = false ->
  text <> "!list" -> text <> "!random" -> text <> "!summarize" ->
  no_panic w ->
  exists s' reply,
    Dedup.handleEventAPI w ev s = Done s' /\
    posts (Dedup.trace s') = posts (Dedup.trace s) ++ [(Channel ev, reply)] /\
    requests (Dedup.trace s') =
      requests (Dedup.trace s)
      ++ (if decide (text = Dedup.lastUserInput s) then [] else [text]) /\
    (text = Dedup.lastUserInput s -> reply = Dedup.lastBotResponse s).
Proof.
  intros text Hbot Hsave Hlist Hrandom Hsum Hw.
  unfold Dedup.handleEventAPI. rewrite Hbot. cbn [String.eqb].
  rewrite handleUserMessage_default by assumption. fold text.
  destruct (String.eqb_spec text (Dedup.lastUserInput s)) as [Heq|Hne]; cbn [negb].
  - exists (Dedup.slackSendMessage (Channel ev) (Dedup.lastBotResponse s) s),
      (Dedup.lastBotResponse s).
    rewrite decide_True by assumption. trace_simpl. tauto.
  - rewrite decide_False by assumption.
    pose proof (PerplexityAPI_state w text (Dedup.set_lastUserInput text s)) as Hs.
    pose proof (PerplexityAPI_no_panic w text (Dedup.set_lastUserInput text s) Hw) as Hp.
    destruct (Dedup.PerplexityAPI w text (Dedup.set_lastUserInput text s))
      as [[response|err|msg] s1]; cbn [fst snd] in Hs, Hp; subst s1.
    + eexists _, response. split; [reflexivity|]. trace_simpl.
      repeat split; try reflexivity. intros E. now destruct Hne.
    + eexists _, ("Error: " +:+ err). split; [reflexivity|]. trace_simpl.
      repeat split; try reflexivity. intros E. now destruct Hne.
    + now destruct (Hp msg).
Qed.

Lemma no_panic_answering (content : string) : no_panic (answering content).
Proof.
  intros result msg H. injection H as <-. vm_compute. discriminate.
Defined.

Lemma no_panic_unreachable : no_panic unreachable.
Proof. intros result msg H. discriminate H. Defined.

Lemma C1_default_completion_witness :
  exists s' reply,
    Dedup.handleEventAPI (answering "Hi!") (message "U1" " hello ")
      (Dedup.start no_rows) = Done s' /\
    posts (Dedup.trace s') =
      posts (Dedup.trace (Dedup.start no_rows)) ++ [("C01", reply)] /\
    requests (Dedup.trace s') =
      requests (Dedup.trace (Dedup.start no_rows))
      ++ (if decide (TrimSpace " hello " = "") then [] else [TrimSpace " hello "]) /\
    (TrimSpace " hello " = "" -> reply = "").
Proof.
  apply (C1_default_completion (answering "Hi!") (message "U1" " hello ")
           (Dedup.start no_rows)).
  - reflexivity.
  - reflexivity.
  - intros E. vm_compute in E. discriminate E.
  - intros E. vm_compute in E. discriminate E.
  - intros E. vm_compute in E. discriminate E.
  - apply no_panic_answering.
Defined.

(** C1 fails as stated: the text [hello] is none of the command forms, and
    when it comes twice the second handling sends its message without any
    request to the endpoint. *)
Lemma C1_counterexample :
  command_form (TrimSpace (Text (message "U1" "hello"))) = false /\
  exists s1 s2,
    Dedup.handleEventAPI (answering "Hi!") (message "U1" "hello")
      (Dedup.start no_rows) = Done s1 /\
    Dedup.handleEventAPI (answering "Hi!") (message "U1" "hello") s1 = Done s2 /\
    requests (Dedup.trace s2) = requests (Dedup.trace s1) /\
    requests (Dedup.trace s2) <> requests (Dedup.trace s1) ++ ["hello"] /\
    posts (Dedup.trace s2) = posts (Dedup.trace s1) ++ [("C01", "Hi!")].
Proof.
  split; [reflexivity|].
  eexists _, _. split; [vm_compute; reflexivity|].
  split; [vm_compute; reflexivity|].
  vm_compute. repeat split. discriminate.
Qed.

(** [handleMessage] of src/main.go has no default branch: a text that is
    none of its commands changes nothing and sends nothing. *)
Lemma handleMessage_unmatched (w : World) (event : MessageEvent) (s : Links.State) :
  let text := TrimSpace (Text event) in
  HasPrefix text "!perplexity" = false -> HasPrefix text "!savelink" = false ->
  text <> "!getlink" -> text <> "!listlinks" -> text <> "!summarize" ->
  Links.handleMessage w event s = s.
Proof.
  intros text Hp Hs Hg Hl Hsum. unfold Links.handleMessage. fold text.
  rewrite Hp, Hs. apply String.eqb_neq in Hg, Hl, Hsum.
  now rewrite Hg, Hl, Hsum.
Qed.

(** ** Messages of automated accounts *)

(** [handleEventAPI] of part_000 drops a message that carries a [BotID]:
    nothing is executed, the state and the trace stay as they are. *)
Lemma handleEventAPI_discards_bot (w : World) (ev : MessageEvent) (s : Dedup.State) :
  BotID ev <> "" -> Dedup.handleEventAPI w ev s = Done s.
Proof.
  intros H. unfold Dedup.handleEventAPI.
  apply String.eqb_neq in H. now rewrite H.
Qed.

(** So does the loop of the second program of src/main.go. *)
Lemma onMessage_discards_bot (key : string) (r : PerUser.Reply)
    (ev : MessageEvent) (s : PerUser.State) :
  BotID ev <> "" -> PerUser.onMessage key r ev s = Done s.
Proof.
  intros H. unfold PerUser.onMessage.
  apply String.eqb_neq in H. now rewrite H.
Qed.

(** C2 does not hold in the first program of src/main.go, whose loop never
    reads [BotID]: the message of a bot that says [!perplexity hello] is
    dispatched, the endpoint is asked and the answer is posted. *)
Theorem C2_bot_message_dispatched :
  BotID (bot_message "!perplexity hello") <> "" /\
  let s' := Links.dispatch (answering "Hi!") (bot_message "!perplexity hello")
              (Links.start no_rows) in
  requests (Links.trace s') = [" hello"] /\
  posts (Links.trace s') = [("C01", "Hi!")].
Proof. split; [discriminate|]. vm_compute. split; reflexivity. Qed.

(** ** Picking a link and removing it *)

Section Pick.

Lemma filter_other_ids (id : Z) (l : list (Z * string)) :
  id ∉ l.*1 -> filter (fun r => r.1 ≠ id) l = l.
Proof.
  induction l as [|r l IH]; intros H; [reflexivity|].
  rewrite fmap_cons, not_elem_of_cons in H. destruct H as [Hr Hl].
  rewrite filter_cons_True by (intros E; now apply Hr).
  now rewrite IH.
Qed.

(** With unique ids, removing by id takes out the one row picked. *)
Lemma remove_by_id (id : Z) (url : string) (l : list (Z * string)) :
  NoDup l.*1 -> (id, url) ∈ l ->
  l ≡ₚ (id, url) :: filter (fun r => r.1 ≠ id) l.
Proof.
  induction l as [|r l IH]; intros Hnd Hin; [now apply elem_of_nil in Hin|].
  rewrite fmap_cons in Hnd. apply NoDup_cons in Hnd as [Hr Hnd].
  apply elem_of_cons in Hin as [<-|Hin].
  - rewrite filter_cons_False by (intros E; now apply E).
    now rewrite filter_other_ids.
  - assert (r.1 ≠ id) as Hne.
    { intros E. apply Hr. rewrite E.
      change id with ((id, url).1). now apply list_elem_of_fmap_2. }
    rewrite filter_cons_True by assumption.
    rewrite (IH Hnd Hin) at 1. apply Permutation_swap.
Qed.

Lemma SELECT_random_elem (n : nat) (t : Table) (r : Z * string) :
  SELECT_random n t = Some r -> r ∈ rows t.
Proof. unfold SELECT_random. apply list_elem_of_lookup_2. Qed.

(** In an empty table there is nothing to pick, in any other there is. *)
Lemma SELECT_random_None (n : nat) (t : Table) :
  SELECT_random n t = None <-> rows t = [].
Proof.
  unfold SELECT_random. split.
  - intros H. apply lookup_ge_None in H. destruct (rows t) as [|r l]; [reflexivity|].
    exfalso. pose proof (Nat.mod_upper_bound n (length (r :: l))) as B.
    cbn [length] in *. lia.
  - now intros ->.
Qed.

(** X9: [getRandomHyperlink] of part_000, on success: the row it picked, by
    its id, is the one row that leaves the table; every other row, also one
    with the same URL, stays. That id is not in the table afterwards, and no
    later [INSERT] gives it out again. *)
Lemma getRandomHyperlink_removes_picked (w : World) (s s' : Dedup.State)
    (url : string) :
  table_ok (Dedup.db s) ->
  Dedup.getRandomHyperlink w s = (inr url, s') ->
  exists id,
    ((id, url) ∈ rows (Dedup.db s)) /\
    (rows (Dedup.db s) ≡ₚ (id, url) :: rows (Dedup.db s')) /\
    (id ∉ (rows (Dedup.db s')).*1) /\
    (id <= seq (Dedup.db s'))%Z /\
    table_ok (Dedup.db s').
Proof.
  intros [Hnd Hle] H. unfold Dedup.getRandomHyperlink in H.
  destruct (queryErr w); [discriminate|].
  cbn [Dedup.db Dedup.emit] in H.
  destruct (SELECT_random (random w) (Dedup.db s)) as [[id u]|] eqn:Hsel;
    [|discriminate].
  destruct (execErr w); [discriminate|]. injection H as <- <-.
  apply SELECT_random_elem in Hsel. exists id.
  cbn [Dedup.db Dedup.set_db Dedup.emit DELETE_id rows seq].
  split; [assumption|]. split; [now apply remove_by_id|].
  split; [|split].
  - intros Hin. apply list_elem_of_fmap in Hin as [r [-> Hr]].
    apply list_elem_of_filter in Hr as [Hr _]. now apply Hr.
  - rewrite Forall_forall in Hle. apply (Hle _ Hsel).
  - split.
    + cbn [rows]. eapply sublist_NoDup; [exact Hnd|].
      apply fmap_sublist, sublist_filter.
    + cbn [rows seq]. rewrite Forall_forall in *. intros r Hr.
      apply list_elem_of_filter in Hr as [_ Hr]. now apply Hle.
Qed.

End Pick.

Lemma INSERT_ok (url : string) (t : Table) : table_ok t -> table_ok (INSERT url t).
Proof.
  intros [Hnd Hle]. unfold INSERT. split; cbn [rows seq].
  - rewrite fmap_app. apply NoDup_app. split; [assumption|]. split.
    + intros id Hin Hnew. apply list_elem_of_singleton in Hnew. subst id.
      apply list_elem_of_fmap in Hin as [r [E Hr]].
      rewrite Forall_forall in Hle. specialize (Hle r Hr).
      cbn in Hle, E. lia.
    + apply NoDup_singleton.
  - apply Forall_app. split.
    + eapply Forall_impl; [exact Hle|]. intros r Hr. cbn in *. lia.
    + apply Forall_singleton. cbn. lia.
Qed.

Lemma two_links_one_url_ok : table_ok two_links_one_url.
Proof.
  split.
  - cbn. apply (bool_decide_unpack _). vm_compute. exact I.
  - cbn. repeat (apply Forall_cons; split; [cbn; lia|]). apply Forall_nil_2.
Qed.

(** C3 does not hold for [getRandomHyperlink] of src/main.go, which selects
    only the URL and deletes by it: with two rows of one URL in the table,
    the pick of row 1 removes row 2 as well. *)
Theorem C3_same_url_rows_removed :
  table_ok two_links_one_url /\
  SELECT_random (random (answering "")) two_links_one_url
    = Some (1%Z, "http://a/feed") /\
  exists s',
    Links.getRandomHyperlink (answering "") (Links.start two_links_one_url)
      = (inr "http://a/feed", s') /\
    rows (Links.db s') = [(3%Z, "http://b/feed")].
Proof.
  split; [exact two_links_one_url_ok|]. split; [reflexivity|].
  eexists. split; [vm_compute; reflexivity|]. reflexivity.
Qed.

(** On the same table [getRandomHyperlink] of part_000 leaves row 2. *)
Example getRandomHyperlink_keeps_same_url :
  exists s',
    Dedup.getRandomHyperlink (answering "") (Dedup.start two_links_one_url)
      = (inr "http://a/feed", s') /\
    rows (Dedup.db s') = [(2%Z, "http://a/feed"); (3%Z, "http://b/feed")].
Proof. eexists. split; [vm_compute; reflexivity|]. reflexivity. Qed.

(** ** Repeated input *)

Section Repeated.

Variables (w : World) (ev : MessageEvent) (s : Dedup.State).
Let text := TrimSpace (Text ev).
Hypothesis from_user : BotID ev = "".
Hypothesis default : default_intent ev.

Lemma PerplexityAPI_completion (input : string) (s0 : Dedup.State) :
  Dedup.PerplexityAPI w input s0
  = (completion w, Dedup.emit (CompletionRequest input) s0).
Proof.
  unfold Dedup.PerplexityAPI, completion.
  now destruct (http w) as [e|[e|] [e'|result]].
Qed.

Lemma handleEventAPI_default :
  Dedup.handleEventAPI w ev s =
    if negb (String.eqb text (Dedup.lastUserInput s)) then
      match completion w with
      | Panics msg =>
          Crash (Dedup.emit (CompletionRequest text)
                   (Dedup.set_lastUserInput text s)) msg
      | Err err =>
          Done (Dedup.slackSendMessage (Channel ev) ("Error: " +:+ err)
                  (Dedup.emit (CompletionRequest text)
                     (Dedup.set_lastUserInput text s)))
      | Ok response =>
          Done (Dedup.slackSendMessage (Channel ev) response
                  (Dedup.set_lastBotResponse response
                     (Dedup.emit (CompletionRequest text)
                        (Dedup.set_lastUserInput text s))))
      end
    else Done (Dedup.slackSendMessage (Channel ev) (Dedup.lastBotResponse s) s).
Proof.
  destruct default as (Hsave & Hlist & Hrandom & Hsum).
  unfold Dedup.handleEventAPI. rewrite from_user. cbn [String.eqb].
  rewrite handleUserMessage_default by assumption. fold text.
  rewrite PerplexityAPI_completion. now destruct (completion w).
Qed.

(** The text is the remembered one: no request, the remembered response
    is sent, the state keeps its two strings. *)
Lemma handleEventAPI_hit :
  text = Dedup.lastUserInput s ->
  Dedup.handleEventAPI w ev s
  = Done (Dedup.slackSendMessage (Channel ev) (Dedup.lastBotResponse s) s).
Proof.
  intros E. rewrite handleEventAPI_default.
  apply String.eqb_eq in E. now rewrite E.
Qed.

(** Another text, and the endpoint answers: text and answer are remembered. *)
Lemma handleEventAPI_answer (response : string) :
  text <> Dedup.lastUserInput s ->
  completion w = Ok response ->
  Dedup.handleEventAPI w ev s
  = Done {| Dedup.lastUserInput := text;
            Dedup.lastBotResponse := response;
            Dedup.db := Dedup.db s;
            Dedup.trace := Dedup.trace s
              ++ [CompletionRequest text; PostMessage (Channel ev) response] |}.
Proof.
  intros Hne Hc. rewrite handleEventAPI_default, Hc.
  apply String.eqb_neq in Hne. rewrite Hne. cbn [negb].
  unfold Dedup.slackSendMessage, Dedup.emit, Dedup.set_lastBotResponse,
    Dedup.set_lastUserInput. cbn. now rewrite <- app_assoc.
Qed.

(** Another text, and the call fails: the text is remembered all the same,
    the remembered response stays, the error is sent. *)
Lemma handleEventAPI_failure (err : error) :
  text <> Dedup.lastUserInput s ->
  completion w = Err err ->
  Dedup.handleEventAPI w ev s
  = Done {| Dedup.lastUserInput := text;
            Dedup.lastBotResponse := Dedup.lastBotResponse s;
            Dedup.db := Dedup.db s;
            Dedup.trace := Dedup.trace s
              ++ [CompletionRequest text;
                  PostMessage (Channel ev) ("Error: " +:+ err)] |}.
Proof.
  intros Hne Hc. rewrite handleEventAPI_default, Hc.
  apply String.eqb_neq in Hne. rewrite Hne. cbn [negb].
  unfold Dedup.slackSendMessage, Dedup.emit, Dedup.set_lastUserInput.
  cbn. now rewrite <- app_assoc.
Qed.

End Repeated.

(** C4, as the code has it: when a text other than the remembered one is
    handled and the endpoint answers, and the same trimmed text is handled
    next, whoever sends it, the second handling asks nothing: one request
    in all, and the same text in both messages. *)
Theorem C4_repeat_after_answer (w1 w2 : World) (ev1 ev2 : MessageEvent)
    (s : Dedup.State) (response : string) :
  let text := TrimSpace (Text ev1) in
  BotID ev1 = "" -> BotID ev2 = "" ->
  TrimSpace (Text ev2) = text ->
  default_intent ev1 ->
  text <> Dedup.lastUserInput s ->
  completion w1 = Ok response ->
  exists s2,
    Dedup.run [(w1, ev1); (w2, ev2)] s = Done s2 /\
    requests (Dedup.trace s2) = requests (Dedup.trace s) ++ [text] /\
    posts (Dedup.trace s2) =
      posts (Dedup.trace s) ++ [(Channel ev1, response); (Channel ev2, response)].
Proof.
  intros text Hb1 Hb2 Htext Hd Hne Hc. cbn [Dedup.run].
  rewrite (handleEventAPI_answer w1 ev1 s Hb1 Hd response Hne Hc).
  assert (default_intent ev2) as Hd2.
  { unfold default_intent in *. now rewrite Htext. }
  rewrite (handleEventAPI_hit w2 ev2 _ Hb2 Hd2) by (now rewrite Htext).
  eexists. split; [reflexivity|].
  unfold Dedup.slackSendMessage, Dedup.emit. cbn [Dedup.trace Dedup.lastBotResponse].
  unfold requests, posts. rewrite !omap_app. cbn.
  rewrite !app_nil_r, <- !app_assoc. split; reflexivity.
Qed.

Lemma C4_repeat_after_answer_witness :
  exists s2,
    Dedup.run [(answering "Hi!", message "U1" "hello");
               (unreachable, message "U1" " hello")] (Dedup.start no_rows)
      = Done s2 /\
    requests (Dedup.trace s2) =
      requests (Dedup.trace (Dedup.start no_rows)) ++ [TrimSpace "hello"] /\
    posts (Dedup.trace s2) =
      posts (Dedup.trace (Dedup.start no_rows)) ++ [("C01", "Hi!"); ("C01", "Hi!")].
Proof.
  apply (C4_repeat_after_answer (answering "Hi!") unreachable
           (message "U1" "hello") (message "U1" " hello")
           (Dedup.start no_rows) "Hi!").
  - reflexivity.
  - reflexivity.
  - reflexivity.
  - repeat split; try reflexivity; intros E; vm_compute in E; discriminate E.
  - intros E. vm_compute in E. discriminate E.
  - reflexivity.
Defined.

(** C4 fails as stated: the sender UA sends [q] twice with no other text of
    their own in between, only UB's [z]; the endpoint is asked for [q] both
    times, and the two answers need not be the same. *)
Lemma C4_counterexample :
  exists s,
    Dedup.run [(answering "first", message "UA" "q");
               (answering "zed", message "UB" "z");
               (answering "second", message "UA" "q")] (Dedup.start no_rows)
      = Done s /\
    requests (Dedup.trace s) = ["q"; "z"; "q"] /\
    posts (Dedup.trace s) = [("C01", "first"); ("C01", "zed"); ("C01", "second")].
Proof. eexists. split; [vm_compute; reflexivity|]. split; reflexivity. Qed.

(** In the second program of src/main.go every message of a user is sent
    to the endpoint; a repeated text gets no message back. *)
Example onMessage_repeat :
  exists s1 s2,
    PerUser.onMessage "key" (PerUser.Choices ["Hi!"]) (message "U1" "hello")
      PerUser.start = Done s1 /\
    PerUser.onMessage "key" (PerUser.Choices ["Hi!"]) (message "U1" "hello") s1
      = Done s2 /\
    requests (PerUser.trace s2) = ["hello"; "hello"] /\
    posts (PerUser.trace s2) = [("general", "Hi!")].
Proof.
  eexists _, _. split; [reflexivity|]. split; [vm_compute; reflexivity|].
  split; reflexivity.
Qed.

(** ** One sender and another *)





(** ** A failed call *)

(** C6 does not hold: [lastUserInput = text] is assigned before the call.
    When the endpoint cannot be reached the error is sent and the text is
    remembered all the same; the same text sent again, with the endpoint
    back, is taken for a repetition and gets the remembered response, here
    still the empty string, without a request. *)
Theorem C6_failed_call_remembered :
  completion unreachable = Err "dial tcp: connection refused" /\
  exists s1 s2,
    Dedup.handleEventAPI unreachable (message "U1" "hello") (Dedup.start no_rows)
      = Done s1 /\
    Dedup.lastUserInput (Dedup.start no_rows) = "" /\
    Dedup.lastUserInput s1 = "hello" /\
    Dedup.lastBotResponse s1 = "" /\
    posts (Dedup.trace s1) = [("C01", "Error: dial tcp: connection refused")] /\
    Dedup.handleEventAPI (answering "Hi!") (message "U1" "hello") s1 = Done s2 /\
    requests (Dedup.trace s2) = ["hello"] /\
    posts (Dedup.trace s2) =
      [("C01", "Error: dial tcp: connection refused"); ("C01", "")].
Proof.
  split; [reflexivity|]. eexists _, _.
  split; [vm_compute; reflexivity|].
  do 4 (split; [reflexivity|]).
  split; [vm_compute; reflexivity|]. split; reflexivity.
Qed.

(** ** An empty table *)

(** X17: [getRandomHyperlink] of src/main.go on an empty table: the empty
    string and no error, and [!getlink] answers with the fixed text. *)
Lemma getlink_on_empty_table (w : World) (event : MessageEvent) (s : Links.State) :
  rows (Links.db s) = [] -> queryErr w = None ->
  TrimSpace (Text event) = "!getlink" ->
  Links.getRandomHyperlink w s = (inr "", Links.emit Query_SELECT_random s) /\
  Links.handleMessage w event s
  = Links.slackSendMessage (Channel event) "No hyperlinks available"
      (Links.emit Query_SELECT_random s).
Proof.
  intros Hrows Hq Htext.
  assert (Links.getRandomHyperlink w s = (inr "", Links.emit Query_SELECT_random s))
    as Hget.
  { unfold Links.getRandomHyperlink. rewrite Hq.
    cbn [Links.db Links.emit].
    now rewrite (proj2 (SELECT_random_None (random w) (Links.db s)) Hrows). }
  split; [exact Hget|].
  unfold Links.handleMessage. rewrite Htext, Hget. reflexivity.
Qed.

(** C7 does not hold in part_000, where [getRandomHyperlink] returns the
    error of [Scan] for an empty result and [!random] sends it. *)
Theorem C7_random_on_empty_table :
  rows no_rows = [] /\
  (Dedup.getRandomHyperlink (answering "") (Dedup.start no_rows)).1
    = inl "sql: no rows in result set" /\
  posts (Dedup.trace
           (final (Dedup.handleEventAPI (answering "") (message "U1" "!random")
                     (Dedup.start no_rows))))
    = [("C01", "Error getting random hyperlink: sql: no rows in result set")].
Proof. repeat split. Qed.

(** ** The shape of the answer *)

(** Where the path [choices[0].message.content] is there,
    [Dedup.content_of] returns its value. *)
Lemma content_of_path (result : list (string * JSON)) (content : string) :
  content_path result = Some content -> Dedup.content_of result = Ok content.
Proof.
  unfold content_path, Dedup.content_of.
  destruct (jget "choices" result) as [[| | | |[|[| | | | |choice] rest]|]|];
    try discriminate.
  destruct (jget "message" choice) as [[| | | | |message]|]; try discriminate.
  destruct (jget "content" message) as [[| | |c| |]|]; try discriminate.
  now intros [= ->].
Qed.

(** Where it is missing, the result is the error [invalid response
    format], except that a first choice that is not an object is a panic. *)
Lemma content_of_no_path (result : list (string * JSON)) :
  content_path result = None ->
  Dedup.content_of result = Err "invalid response format" \/
  exists choice rest msg,
    jget "choices" result = Some (JArray (choice :: rest)) /\
    (forall fields, choice <> JObject fields) /\
    Dedup.content_of result = Panics msg.
Proof.
  unfold content_path, Dedup.content_of.
  destruct (jget "choices" result) as [[| | | |[|choice rest]|]|];
    try (now left).
  destruct choice as [| | | | |fields];
    try (intros _; right; eexists _, rest, _; repeat split; discriminate).
  destruct (jget "message" fields) as [[| | | | |message]|]; try (now left).
  destruct (jget "content" message) as [[| | |c| |]|]; now left.
Qed.

(** C8 does not hold: for a body whose [choices] starts with something
    that is not an object, the path is missing and [PerplexityAPI] of
    part_000 panics; the handler crashes with the request made and no
    message sent. *)
Theorem C8_first_choice_not_an_object :
  content_path [("choices", JArray [JString "none"])] = None /\
  (exists msg, completion odd_choice = Panics msg) /\
  exists s' msg,
    Dedup.handleEventAPI odd_choice (message "U1" "hello") (Dedup.start no_rows)
      = Crash s' msg /\
    requests (Dedup.trace s') = ["hello"] /\
    posts (Dedup.trace s') = [].
Proof.
  split; [reflexivity|]. split; [eexists; reflexivity|].
  eexists _, _. split; [vm_compute; reflexivity|]. split; reflexivity.
Qed.

(** [PerplexityAPI] of src/main.go asserts each step with the comma-ok
    form: it never panics, and returns a fixed text for a missing path. *)
Lemma Links_PerplexityAPI_no_path (w : World) (query : string) (s : Links.State)
    (readErr : option error) (result : list (string * JSON)) :
  http w = Response readErr (inr result) ->
  content_path result = None ->
  (Links.PerplexityAPI w query s).1 = "No response from Perplexity API".
Proof.
  intros Hh Hp. unfold Links.PerplexityAPI. rewrite Hh.
  change (Links.content_of result) with (content_path result).
  now rewrite Hp.
Qed.

(** ** The argument of the save commands *)

(** C9, as the code has it: the argument is what follows the prefix in
    the trimmed text, as it is, and it goes to [INSERT] without a check.
    After ["!save "] it cannot be empty, since the trimmed text does not end
    with a space; after ["!savelink"] it can. *)
Theorem C9_save_argument (w : World) (ev event : MessageEvent)
    (s : Dedup.State) (l : Links.State) :
  BotID ev = "" ->
  HasPrefix (TrimSpace (Text ev)) "!save " = true ->
  HasPrefix (TrimSpace (Text event)) "!perplexity" = false ->
  HasPrefix (TrimSpace (Text event)) "!savelink" = true ->
  (let url := TrimPrefix (TrimSpace (Text ev)) "!save " in
   TrimSpace (Text ev) = "!save " +:+ url /\
   url <> "" /\
   inserts (Dedup.trace (final (Dedup.handleEventAPI w ev s)))
     = inserts (Dedup.trace s) ++ [url]) /\
  (let url := TrimPrefix (TrimSpace (Text event)) "!savelink" in
   TrimSpace (Text event) = "!savelink" +:+ url /\
   inserts (Links.trace (Links.handleMessage w event l))
     = inserts (Links.trace l) ++ [url]).
Proof.
  intros Hbot Hsave Hperp Hlink. split; cbn zeta.
  - split; [now apply HasPrefix_split|].
    split; [now apply TrimSpace_save_argument|].
    unfold Dedup.handleEventAPI, Dedup.handleUserMessage, Dedup.saveHyperlink.
    rewrite Hbot, Hsave. cbn [String.eqb].
    destruct (execErr w); cbn [final]; trace_simpl; reflexivity.
  - split; [now apply HasPrefix_split|].
    unfold Links.handleMessage, Links.saveHyperlink. rewrite Hperp, Hlink.
    destruct (execErr w); trace_simpl; reflexivity.
Qed.

Lemma C9_save_argument_witness :
  (let url := TrimPrefix (TrimSpace (Text (message "U1" "!save http://x/y"))) "!save " in
   TrimSpace (Text (message "U1" "!save http://x/y")) = "!save " +:+ url /\
   url <> "" /\
   inserts (Dedup.trace
              (final (Dedup.handleEventAPI unreachable
                        (message "U1" "!save http://x/y") (Dedup.start no_rows))))
     = inserts (Dedup.trace (Dedup.start no_rows)) ++ [url]) /\
  (let url := TrimPrefix (TrimSpace (Text (message "U1" "!savelink"))) "!savelink" in
   TrimSpace (Text (message "U1" "!savelink")) = "!savelink" +:+ url /\
   inserts (Links.trace (Links.handleMessage unreachable (message "U1" "!savelink")
                           (Links.start no_rows)))
     = inserts (Links.trace (Links.start no_rows)) ++ [url]).
Proof.
  refine (C9_save_argument unreachable (message "U1" "!save http://x/y")
            (message "U1" "!savelink") (Dedup.start no_rows) (Links.start no_rows)
            _ _ _ _); reflexivity.
Defined.

(** C9 fails as stated: the spaces between ["!save "] and the URL stay in
    the argument, and the bare [!savelink] stores the empty string. *)
Lemma C9_counterexample :
  inserts (Dedup.trace
             (final (Dedup.handleEventAPI unreachable
                       (message "U1" "!save   http://x/y") (Dedup.start no_rows))))
    = ["  http://x/y"] /\
  TrimSpace "  http://x/y" <> "  http://x/y" /\
  inserts (Links.trace (Links.handleMessage unreachable (message "U1" "!savelink")
                          (Links.start no_rows)))
    = [""] /\
  rows (Links.db (Links.handleMessage unreachable (message "U1" "!savelink")
                    (Links.start no_rows)))
    = [(1%Z, "")].
Proof.
  split; [reflexivity|]. split; [intros E; vm_compute in E; discriminate E|].
  split; reflexivity.
Qed.

(** ** The first messages of a process *)





(** Once a call has failed the remembered input is no longer the empty
    string, and the empty text goes to the endpoint. *)
Example empty_text_after_failure :
  exists s1 s2,
    Dedup.handleEventAPI unreachable (message "U1" "hello") (Dedup.start no_rows)
      = Done s1 /\
    Dedup.handleEventAPI (answering "Hi!") (message "U1" "") s1 = Done s2 /\
    requests (Dedup.trace s2) = ["hello"; ""].
Proof.
  eexists _, _. split; [vm_compute; reflexivity|].
  split; [vm_compute; reflexivity|]. reflexivity.
Qed.

(** * More of the code *)

(** ** part_000: one message, one reply *)

Section StringFacts2.

Lemma HasPrefix_app (prefix rest : string) : HasPrefix (prefix +:+ rest) prefix = true.
Proof.
  induction prefix as [|p prefix IH]; [now destruct rest|].
  change (String p prefix +:+ rest) with (String p (prefix +:+ rest)).
  cbn [HasPrefix]. now rewrite Ascii.eqb_refl, IH.
Qed.

Lemma TrimPrefix_app (prefix rest : string) : TrimPrefix (prefix +:+ rest) prefix = rest.
Proof.
  unfold TrimPrefix. rewrite HasPrefix_app.
  induction prefix as [|p prefix IH]; [reflexivity|]. exact IH.
Qed.

End StringFacts2.






(** X3: A run of messages of bots only changes nothing and sends nothing. *)
Theorem run_of_bots (evs : list (World * MessageEvent)) (s : Dedup.State) :
  Forall (fun p => BotID p.2 <> "") evs -> Dedup.run evs s = Done s.
Proof.
  induction 1 as [|[w ev] rest Hbot _ IH]; [reflexivity|].
  cbn [Dedup.run]. cbn [snd] in Hbot.
  now rewrite handleEventAPI_discards_bot.
Qed.

Lemma run_of_bots_witness :
  Dedup.run [(answering "Hi!", bot_message "!random");
             (answering "Hi!", bot_message "hello")] (Dedup.start one_link)
  = Done (Dedup.start one_link).
Proof.
  apply (run_of_bots [(answering "Hi!", bot_message "!random");
                      (answering "Hi!", bot_message "hello")]
           (Dedup.start one_link)).
  repeat constructor; discriminate.
Defined.

(** ** part_000: commands and the endpoint *)

(** X4: A command never reaches the endpoint, never panics and leaves the
    remembered input and response alone: [!summarize], its name
    notwithstanding, sends the title and description of the feed's first
    item and asks the endpoint nothing. *)
Theorem commands_ask_nothing (w : World) (ev : MessageEvent) (s : Dedup.State) :
  Dedup_command (TrimSpace (Text ev)) = true ->
  exists s',
    Dedup.handleUserMessage w ev s = Done s' /\
    requests (Dedup.trace s') = requests (Dedup.trace s) /\
    Dedup.lastUserInput s' = Dedup.lastUserInput s /\
    Dedup.lastBotResponse s' = Dedup.lastBotResponse s.
Proof.
  unfold Dedup_command, Dedup.handleUserMessage, Dedup.saveHyperlink,
    Dedup.listHyperlinks, Dedup.getRandomHyperlink, Dedup.summarizeArticle.
  intros Hc.
  repeat case_match; simplify_eq; try discriminate;
    (eexists; split; [reflexivity|]; trace_simpl; rewrite ?app_nil_r; now repeat split).
Qed.

Lemma commands_ask_nothing_witness :
  exists s',
    Dedup.handleUserMessage failing_feed (message "U1" " !summarize ")
      (Dedup.start one_link) = Done s' /\
    requests (Dedup.trace s') = requests (Dedup.trace (Dedup.start one_link)) /\
    Dedup.lastUserInput s' = Dedup.lastUserInput (Dedup.start one_link) /\
    Dedup.lastBotResponse s' = Dedup.lastBotResponse (Dedup.start one_link).
Proof.
  apply (commands_ask_nothing failing_feed (message "U1" " !summarize ")
           (Dedup.start one_link)).
  reflexivity.
Defined.

(** X5: The endpoint's answer is returned exactly when the decoded body has a
    string under [choices[0].message.content], and then it is that
    string. *)
Theorem completion_Ok_iff (w : World) (content : string) :
  completion w = Ok content <->
  exists result,
    http w = Response None (inr result) /\ content_path result = Some content.
Proof.
  unfold completion. split.
  - destruct (http w) as [e|[e|] [e'|result]]; try discriminate.
    intros H. exists result. split; [reflexivity|].
    destruct (content_path result) as [c|] eqn:Hp.
    + apply content_of_path in Hp. congruence.
    + apply content_of_no_path in Hp as [Hp|(choice & rest & msg & _ & _ & Hp)];
        congruence.
  - intros (result & -> & Hp). now apply content_of_path.
Qed.

(** ** part_000: the table of links *)

Lemma DELETE_id_ok (id : Z) (t : Table) : table_ok t -> table_ok (DELETE_id id t).
Proof.
  intros [Hnd Hle]. split; cbn [DELETE_id rows seq].
  - eapply sublist_NoDup; [exact Hnd|]. apply fmap_sublist, sublist_filter.
  - rewrite Forall_forall in *. intros r Hr.
    apply list_elem_of_filter in Hr as [_ Hr]. now apply Hle.
Qed.

Lemma DELETE_url_ok (url : string) (t : Table) : table_ok t -> table_ok (DELETE_url url t).
Proof.
  intros [Hnd Hle]. split; cbn [DELETE_url rows seq].
  - eapply sublist_NoDup; [exact Hnd|]. apply fmap_sublist, sublist_filter.
  - rewrite Forall_forall in *. intros r Hr.
    apply list_elem_of_filter in Hr as [_ Hr]. now apply Hle.
Qed.

Lemma table_ok_refl_le (t : Table) : (seq t <= seq t)%Z.
Proof. lia. Qed.

Lemma INSERT_seq (url : string) (t : Table) : (seq t <= seq (INSERT url t))%Z.
Proof. cbn. lia. Qed.

(** X6: Whatever message is handled, the ids in the table stay unique and at
    most the sequence value, and the sequence value does not go down: an
    id that was given out is never given out again. *)
Theorem handleEventAPI_keeps_ids (w : World) (ev : MessageEvent) (s : Dedup.State) :
  table_ok (Dedup.db s) ->
  table_ok (Dedup.db (final (Dedup.handleEventAPI w ev s))) /\
  (seq (Dedup.db s) <= seq (Dedup.db (final (Dedup.handleEventAPI w ev s))))%Z.
Proof.
  intros Hok.
  unfold Dedup.handleEventAPI, Dedup.handleUserMessage, Dedup.saveHyperlink,
    Dedup.listHyperlinks, Dedup.getRandomHyperlink, Dedup.summarizeArticle.
  rewrite PerplexityAPI_completion.
  repeat case_match; simplify_eq; cbn [final]; trace_simpl;
    cbn [DELETE_id seq];
    auto using INSERT_ok, DELETE_id_ok, table_ok_refl_le, INSERT_seq.
Qed.

Lemma handleEventAPI_keeps_ids_witness :
  table_ok (Dedup.db (final (Dedup.handleEventAPI (answering "Hi!")
                               (message "U1" "!save http://c/feed")
                               (Dedup.start two_links_one_url)))) /\
  (seq (Dedup.db (Dedup.start two_links_one_url))
   <= seq (Dedup.db (final (Dedup.handleEventAPI (answering "Hi!")
                              (message "U1" "!save http://c/feed")
                              (Dedup.start two_links_one_url)))))%Z.
Proof.
  apply (handleEventAPI_keeps_ids (answering "Hi!")
           (message "U1" "!save http://c/feed") (Dedup.start two_links_one_url)).
  exact two_links_one_url_ok.
Defined.

(** X7: [getRandomHyperlink] fails in three cases only, the query fails, the
    table is empty, the [DELETE] fails, and then the table is what it was:
    a link that could not be removed is not handed out. *)
Theorem getRandomHyperlink_error (w : World) (s s' : Dedup.State) (e : error) :
  Dedup.getRandomHyperlink w s = (inl e, s') ->
  Dedup.db s' = Dedup.db s /\
  (queryErr w = Some e \/
   (queryErr w = None /\ rows (Dedup.db s) = [] /\ e = ErrNoRows) \/
   (queryErr w = None /\ rows (Dedup.db s) <> [] /\ execErr w = Some e)).
Proof.
  unfold Dedup.getRandomHyperlink.
  destruct (queryErr w) as [qe|]; [intros [= <- <-]; auto|].
  cbn [Dedup.db Dedup.emit].
  destruct (SELECT_random (random w) (Dedup.db s)) as [[id url]|] eqn:Hsel.
  - destruct (execErr w) as [xe|]; [|discriminate]. intros [= <- <-].
    split; [reflexivity|]. right. right. repeat split.
    intros Hempty. apply SELECT_random_None with (n := random w) in Hempty.
    congruence.
  - intros [= <- <-]. split; [reflexivity|]. right. left.
    apply SELECT_random_None in Hsel. now repeat split.
Qed.

Lemma getRandomHyperlink_error_witness :
  Dedup.db (Dedup.emit (Exec_DELETE_id 7)
              (Dedup.emit Query_SELECT_random (Dedup.start one_link)))
  = Dedup.db (Dedup.start one_link) /\
  (queryErr locked = Some "database is locked" \/
   (queryErr locked = None /\ rows (Dedup.db (Dedup.start one_link)) = []
    /\ "database is locked" = ErrNoRows) \/
   (queryErr locked = None /\ rows (Dedup.db (Dedup.start one_link)) <> []
    /\ execErr locked = Some "database is locked")).
Proof.
  apply (getRandomHyperlink_error locked (Dedup.start one_link)).
  reflexivity.
Defined.

(** X8: Without an error of the database, [getRandomHyperlink] on a table that
    is not empty returns the URL of one of its rows. *)
Theorem getRandomHyperlink_some (w : World) (s : Dedup.State) :
  queryErr w = None -> execErr w = None -> rows (Dedup.db s) <> [] ->
  exists id url s',
    Dedup.getRandomHyperlink w s = (inr url, s') /\
    ((id, url) ∈ rows (Dedup.db s)) /\
    rows (Dedup.db s') = filter (fun r => r.1 ≠ id) (rows (Dedup.db s)).
Proof.
  intros Hq Hx Hrows. unfold Dedup.getRandomHyperlink. rewrite Hq, Hx.
  cbn [Dedup.db Dedup.emit].
  destruct (SELECT_random (random w) (Dedup.db s)) as [[id url]|] eqn:Hsel.
  - exists id, url. eexists. split; [reflexivity|].
    split; [now apply SELECT_random_elem in Hsel|]. reflexivity.
  - now apply SELECT_random_None in Hsel.
Qed.

Lemma getRandomHyperlink_some_witness :
  exists id url s',
    Dedup.getRandomHyperlink failing_feed (Dedup.start two_links_one_url)
      = (inr url, s') /\
    ((id, url) ∈ rows (Dedup.db (Dedup.start two_links_one_url))) /\
    rows (Dedup.db s')
    = filter (fun r => r.1 ≠ id) (rows (Dedup.db (Dedup.start two_links_one_url))).
Proof.
  apply (getRandomHyperlink_some failing_feed (Dedup.start two_links_one_url)).
  - reflexivity.
  - reflexivity.
  - discriminate.
Defined.

Lemma getRandomHyperlink_removes_picked_witness :
  exists id,
    ((id, "http://b/feed") ∈ rows (Dedup.db (Dedup.start two_links_one_url))) /\
    (rows (Dedup.db (Dedup.start two_links_one_url))
       ≡ₚ (id, "http://b/feed")
          :: rows (Dedup.db
                     (Dedup.set_db (DELETE_id 3 two_links_one_url)
                        (Dedup.emit (Exec_DELETE_id 3)
                           (Dedup.emit Query_SELECT_random
                              (Dedup.start two_links_one_url)))))) /\
    (id ∉ (rows (Dedup.db
                   (Dedup.set_db (DELETE_id 3 two_links_one_url)
                      (Dedup.emit (Exec_DELETE_id 3)
                         (Dedup.emit Query_SELECT_random
                            (Dedup.start two_links_one_url)))))).*1) /\
    (id <= seq (Dedup.db
                  (Dedup.set_db (DELETE_id 3 two_links_one_url)
                     (Dedup.emit (Exec_DELETE_id 3)
                        (Dedup.emit Query_SELECT_random
                           (Dedup.start two_links_one_url))))))%Z /\
    table_ok (Dedup.db
                (Dedup.set_db (DELETE_id 3 two_links_one_url)
                   (Dedup.emit (Exec_DELETE_id 3)
                      (Dedup.emit Query_SELECT_random
                         (Dedup.start two_links_one_url))))).
Proof.
  apply (getRandomHyperlink_removes_picked failing_feed
           (Dedup.start two_links_one_url)).
  - exact two_links_one_url_ok.
  - reflexivity.
Defined.

(** One [!save url] handled while [INSERT] works: the URL is the last row
    of the table, under a new id, and the confirmation is sent. *)
Lemma handleEventAPI_saves (p : World * MessageEvent) (url : string) (s : Dedup.State) :
  saves p url ->
  Dedup.handleEventAPI p.1 p.2 s
  = Done {| Dedup.lastUserInput := Dedup.lastUserInput s;
            Dedup.lastBotResponse := Dedup.lastBotResponse s;
            Dedup.db := INSERT url (Dedup.db s);
            Dedup.trace := Dedup.trace s
              ++ [Exec_INSERT url;
                  PostMessage (Channel p.2) "Hyperlink saved successfully!"] |}.
Proof.
  intros (Hbot & Htext & Hexec).
  unfold Dedup.handleEventAPI, Dedup.handleUserMessage, Dedup.saveHyperlink.
  rewrite Hbot, Htext, HasPrefix_app, TrimPrefix_app, Hexec.
  cbn [String.eqb]. unfold Dedup.slackSendMessage, Dedup.emit, Dedup.set_db.
  cbn [Dedup.lastUserInput Dedup.lastBotResponse Dedup.db Dedup.trace].
  now rewrite <- app_assoc.
Qed.

Lemma run_saves (evs : list (World * MessageEvent)) (urls : list string) :
  Forall2 saves evs urls ->
  forall s, exists s',
    Dedup.run evs s = Done s' /\
    SELECT_all (Dedup.db s') = SELECT_all (Dedup.db s) ++ urls /\
    length (posts (Dedup.trace s'))
    = (length (posts (Dedup.trace s)) + length urls)%nat.
Proof.
  induction 1 as [|[w ev] url evs urls Hsave _ IH]; intros s.
  - exists s. cbn. rewrite app_nil_r. split; [reflexivity|]. split; [reflexivity|lia].
  - cbn [Dedup.run].
    pose proof (handleEventAPI_saves (w, ev) url s Hsave) as H1. cbn [fst snd] in H1.
    rewrite H1.
    destruct (IH {| Dedup.lastUserInput := Dedup.lastUserInput s;
                    Dedup.lastBotResponse := Dedup.lastBotResponse s;
                    Dedup.db := INSERT url (Dedup.db s);
                    Dedup.trace := Dedup.trace s
                      ++ [Exec_INSERT url;
                          PostMessage (Channel ev) "Hyperlink saved successfully!"] |})
      as (s' & Hrun & Hrows & Hposts).
    exists s'. split; [exact Hrun|]. unfold SELECT_all in *.
    cbn [Dedup.db Dedup.trace INSERT rows] in *.
    split.
    + rewrite Hrows, fmap_app, <- app_assoc. reflexivity.
    + rewrite Hposts. unfold posts. rewrite omap_app, length_app. cbn. lia.
Qed.

(** X10: Any number of saves, then [!list]: every URL saved comes back as it
    was sent, after the ones that were there, in the order of the saves;
    each save was confirmed; and listing takes nothing out of the table. *)
Theorem saves_then_list (evs : list (World * MessageEvent)) (urls : list string)
    (w : World) (ev : MessageEvent) (s : Dedup.State) :
  Forall2 saves evs urls ->
  BotID ev = "" -> TrimSpace (Text ev) = "!list" -> queryErr w = None ->
  exists s1 s2,
    Dedup.run evs s = Done s1 /\
    length (posts (Dedup.trace s1))
    = (length (posts (Dedup.trace s)) + length urls)%nat /\
    Dedup.handleEventAPI w ev s1 = Done s2 /\
    posts (Dedup.trace s2)
    = posts (Dedup.trace s1)
      ++ [(Channel ev,
           "Saved hyperlinks:" +:+ LF
           +:+ Join (SELECT_all (Dedup.db s) ++ urls) LF)] /\
    Dedup.db s2 = Dedup.db s1.
Proof.
  intros Hsaves Hbot Htext Hq.
  destruct (run_saves evs urls Hsaves s) as (s1 & Hrun & Hrows & Hposts).
  exists s1. eexists. split; [exact Hrun|]. split; [exact Hposts|].
  unfold Dedup.handleEventAPI, Dedup.handleUserMessage, Dedup.listHyperlinks.
  rewrite Hbot, Htext, Hq. cbn [String.eqb HasPrefix Ascii.eqb andb].
  split; [reflexivity|]. trace_simpl. rewrite Hrows.
  split; reflexivity.
Qed.

Lemma saves_then_list_witness :
  exists s1 s2,
    Dedup.run [(answering "", message "U1" "!save http://c/feed ");
               (answering "", message "U2" " !save  HTTP://D")]
      (Dedup.start one_link) = Done s1 /\
    length (posts (Dedup.trace s1))
    = (length (posts (Dedup.trace (Dedup.start one_link)))
       + length ["http://c/feed"; " HTTP://D"])%nat /\
    Dedup.handleEventAPI (answering "") (message "U1" "!list") s1 = Done s2 /\
    posts (Dedup.trace s2)
    = posts (Dedup.trace s1)
      ++ [(Channel (message "U1" "!list"),
           "Saved hyperlinks:" +:+ LF
           +:+ Join (SELECT_all (Dedup.db (Dedup.start one_link))
                     ++ ["http://c/feed"; " HTTP://D"]) LF)] /\
    Dedup.db s2 = Dedup.db s1.
Proof.
  apply (saves_then_list
           [(answering "", message "U1" "!save http://c/feed ");
            (answering "", message "U2" " !save  HTTP://D")]
           ["http://c/feed"; " HTTP://D"]
           (answering "") (message "U1" "!list") (Dedup.start one_link)).
  - repeat constructor.
  - reflexivity.
  - reflexivity.
  - reflexivity.
Defined.

(** X11: A link saved into an empty table and then asked for with [!random]
    comes back as it was saved, whatever the random choice, and the table
    is empty again. *)
Theorem save_then_random (p : World * MessageEvent) (url : string)
    (w : World) (ev : MessageEvent) (s : Dedup.State) :
  rows (Dedup.db s) = [] ->
  saves p url ->
  BotID ev = "" -> TrimSpace (Text ev) = "!random" ->
  queryErr w = None -> execErr w = None ->
  exists s2,
    Dedup.run [p; (w, ev)] s = Done s2 /\
    posts (Dedup.trace s2)
    = posts (Dedup.trace s)
      ++ [(Channel p.2, "Hyperlink saved successfully!");
          (Channel ev, "Random hyperlink: " +:+ url)] /\
    rows (Dedup.db s2) = [].
Proof.
  intros Hempty Hsave Hbot Htext Hq Hx. destruct p as [w1 ev1].
  cbn [Dedup.run].
  pose proof (handleEventAPI_saves (w1, ev1) url s Hsave) as H1.
  cbn [fst snd] in H1. rewrite H1. clear H1.
  unfold Dedup.handleEventAPI, Dedup.handleUserMessage, Dedup.getRandomHyperlink.
  rewrite Hbot, Htext, Hq, Hx. cbn [String.eqb HasPrefix Ascii.eqb andb].
  cbn [Dedup.db Dedup.emit]. unfold SELECT_random, INSERT. cbn [rows].
  rewrite Hempty. cbn [app length]. rewrite Nat.mod_1_r. cbn [lookup list_lookup].
  eexists. split; [reflexivity|]. split.
  - trace_simpl. unfold posts. rewrite !omap_app. cbn.
    now rewrite <- app_assoc.
  - cbn [Dedup.slackSendMessage Dedup.emit Dedup.set_db Dedup.db DELETE_id rows].
    rewrite filter_cons_False by (cbn; intros E; now apply E).
    reflexivity.
Qed.

Lemma save_then_random_witness :
  exists s2,
    Dedup.run [(answering "", message "U1" "!save http://c/feed");
               (failing_feed, message "U2" "!random")] (Dedup.start no_rows)
      = Done s2 /\
    posts (Dedup.trace s2)
    = posts (Dedup.trace (Dedup.start no_rows))
      ++ [(Channel (answering "", message "U1" "!save http://c/feed").2,
           "Hyperlink saved successfully!");
          (Channel (message "U2" "!random"), "Random hyperlink: " +:+ "http://c/feed")] /\
    rows (Dedup.db s2) = [].
Proof.
  apply (save_then_random (answering "", message "U1" "!save http://c/feed")
           "http://c/feed" failing_feed (message "U2" "!random")
           (Dedup.start no_rows)).
  - reflexivity.
  - repeat split.
  - reflexivity.
  - reflexivity.
  - reflexivity.
  - reflexivity.
Defined.

(** X12: [!summarize] takes its link out of the table before it fetches the
    feed: whether the feed fails, is empty or has items, the row is gone
    afterwards, and the reply says which of the three it was. The endpoint
    is not asked. *)
Theorem summarize_consumes_the_link (w : World) (ev : MessageEvent)
    (s : Dedup.State) (id : Z) (url : string) :
  BotID ev = "" -> TrimSpace (Text ev) = "!summarize" ->
  queryErr w = None -> execErr w = None ->
  SELECT_random (random w) (Dedup.db s) = Some (id, url) ->
  exists s',
    Dedup.handleEventAPI w ev s = Done s' /\
    Dedup.db s' = DELETE_id id (Dedup.db s) /\
    requests (Dedup.trace s') = requests (Dedup.trace s) /\
    posts (Dedup.trace s')
    = posts (Dedup.trace s)
      ++ [(Channel ev,
           match feed w with
           | FeedError e => "Error summarizing article: " +:+ e
           | Feed [] => "Error summarizing article: " +:+ "no items found in the feed"
           | Feed (article :: _) =>
               "Summary of " +:+ url +:+ ":" +:+ LF
               +:+ ("Title: " +:+ Title article +:+ LF +:+ LF +:+ "Description: "
                    +:+ Description article)
           end)].
Proof.
  intros Hbot Htext Hq Hx Hsel.
  unfold Dedup.handleEventAPI, Dedup.handleUserMessage, Dedup.getRandomHyperlink,
    Dedup.summarizeArticle.
  rewrite Hbot, Htext, Hq, Hx. cbn [String.eqb HasPrefix Ascii.eqb andb].
  cbn [Dedup.db Dedup.emit]. rewrite Hsel.
  destruct (feed w) as [e|[|article rest]];
    (eexists; split; [reflexivity|]; trace_simpl; now repeat split).
Qed.

Lemma summarize_consumes_the_link_witness :
  exists s',
    Dedup.handleEventAPI failing_feed (message "U1" "!summarize")
      (Dedup.start one_link) = Done s' /\
    Dedup.db s' = DELETE_id 7 (Dedup.db (Dedup.start one_link)) /\
    requests (Dedup.trace s') = requests (Dedup.trace (Dedup.start one_link)) /\
    posts (Dedup.trace s')
    = posts (Dedup.trace (Dedup.start one_link))
      ++ [(Channel (message "U1" "!summarize"),
           match feed failing_feed with
           | FeedError e => "Error summarizing article: " +:+ e
           | Feed [] => "Error summarizing article: " +:+ "no items found in the feed"
           | Feed (article :: _) =>
               "Summary of " +:+ "http://a/feed" +:+ ":" +:+ LF
               +:+ ("Title: " +:+ Title article +:+ LF +:+ LF +:+ "Description: "
                    +:+ Description article)
           end)].
Proof.
  apply (summarize_consumes_the_link failing_feed (message "U1" "!summarize")
           (Dedup.start one_link) 7 "http://a/feed"); reflexivity.
Defined.

(** ** src/main.go, first program *)

(** X14: [handleMessage] sends one message, to the channel of the event, when
    the trimmed text is one of its commands, and nothing otherwise; it
    never panics. *)
Theorem handleMessage_replies (w : World) (event : MessageEvent) (s : Links.State) :
  exists reply,
    posts (Links.trace (Links.handleMessage w event s))
    = posts (Links.trace s)
      ++ (if Links_command (TrimSpace (Text event))
          then [(Channel event, reply)] else []).
Proof.
  unfold Links_command, Links.handleMessage, Links.PerplexityAPI,
    Links.saveHyperlink, Links.getRandomHyperlink, Links.getAllHyperlinks,
    Links.fetchRSS.
  repeat case_match; simplify_eq; cbn [orb];
    try (exists ""; now rewrite app_nil_r);
    eexists; trace_simpl; reflexivity.
Qed.

(** X15: A pick that succeeds removes every row that holds the URL returned
    and no other row: the URL is no longer listed, the rows of other URLs
    keep their order. *)
Theorem Links_pick_removes_url (w : World) (s s' : Links.State) (url : string) :
  rows (Links.db s) <> [] ->
  Links.getRandomHyperlink w s = (inr url, s') ->
  (url ∈ SELECT_all (Links.db s)) /\
  rows (Links.db s') = filter (fun r => r.2 ≠ url) (rows (Links.db s)) /\
  (url ∉ SELECT_all (Links.db s')).
Proof.
  intros Hrows. unfold Links.getRandomHyperlink.
  destruct (queryErr w); [discriminate|]. cbn [Links.db Links.emit].
  destruct (SELECT_random (random w) (Links.db s)) as [[id u]|] eqn:Hsel.
  - destruct (execErr w); [discriminate|]. intros [= <- <-].
    apply SELECT_random_elem in Hsel.
    cbn [Links.db Links.set_db Links.emit DELETE_url rows]. split; [|split].
    + unfold SELECT_all. change u with ((id, u).2). now apply list_elem_of_fmap_2.
    + reflexivity.
    + unfold SELECT_all. cbn [rows]. intros Hin.
      apply list_elem_of_fmap in Hin as [r [E Hr]].
      apply list_elem_of_filter in Hr as [Hr _]. now apply Hr.
  - now apply SELECT_random_None in Hsel.
Qed.

Lemma Links_pick_removes_url_witness :
  ("http://a/feed" ∈ SELECT_all (Links.db (Links.start two_links_one_url))) /\
  rows (Links.db
          (Links.set_db (DELETE_url "http://a/feed" two_links_one_url)
             (Links.emit (Exec_DELETE_url "http://a/feed")
                (Links.emit Query_SELECT_random (Links.start two_links_one_url)))))
  = filter (fun r => r.2 ≠ "http://a/feed")
      (rows (Links.db (Links.start two_links_one_url))) /\
  ("http://a/feed"
     ∉ SELECT_all
         (Links.db
            (Links.set_db (DELETE_url "http://a/feed" two_links_one_url)
               (Links.emit (Exec_DELETE_url "http://a/feed")
                  (Links.emit Query_SELECT_random (Links.start two_links_one_url)))))).
Proof.
  apply (Links_pick_removes_url (answering "") (Links.start two_links_one_url)).
  - discriminate.
  - reflexivity.
Defined.

Ltac eval_tests :=
  repeat match goal with
    | |- context [HasPrefix ?a ?b] =>
        is_ground a; is_ground b;
        let v := eval vm_compute in (HasPrefix a b) in
        change (HasPrefix a b) with v
    | |- context [String.eqb ?a ?b] =>
        is_ground a; is_ground b;
        let v := eval vm_compute in (String.eqb a b) in
        change (String.eqb a b) with v
    end;
  cbv iota.

(** X16: A row whose URL is the empty string (the bare [!savelink] stores one)
    cannot be handed out: when [!getlink] picks it, the rows with the empty
    URL are deleted and the reply says that no link is available, whatever
    else the table holds. *)
Theorem getlink_picks_empty_url (w : World) (event : MessageEvent)
    (s : Links.State) (id : Z) :
  TrimSpace (Text event) = "!getlink" ->
  queryErr w = None -> execErr w = None ->
  SELECT_random (random w) (Links.db s) = Some (id, "") ->
  posts (Links.trace (Links.handleMessage w event s))
  = posts (Links.trace s) ++ [(Channel event, "No hyperlinks available")] /\
  rows (Links.db (Links.handleMessage w event s))
  = filter (fun r => r.2 ≠ "") (rows (Links.db s)).
Proof.
  intros Htext Hq Hx Hsel.
  unfold Links.handleMessage, Links.getRandomHyperlink.
  rewrite Htext, Hq, Hx. eval_tests.
  cbn [Links.db Links.emit]. rewrite Hsel. eval_tests.
  trace_simpl. split; reflexivity.
Qed.

Lemma getlink_picks_empty_url_witness :
  posts (Links.trace (Links.handleMessage (answering "") (message "U1" "!getlink")
                        (Links.start {| rows := [(4%Z, ""); (5%Z, "http://b/feed")];
                                        seq := 5 |})))
  = posts (Links.trace (Links.start {| rows := [(4%Z, ""); (5%Z, "http://b/feed")];
                                       seq := 5 |}))
    ++ [(Channel (message "U1" "!getlink"), "No hyperlinks available")] /\
  rows (Links.db (Links.handleMessage (answering "") (message "U1" "!getlink")
                    (Links.start {| rows := [(4%Z, ""); (5%Z, "http://b/feed")];
                                    seq := 5 |})))
  = filter (fun r => r.2 ≠ "")
      (rows (Links.db (Links.start {| rows := [(4%Z, ""); (5%Z, "http://b/feed")];
                                      seq := 5 |}))).
Proof.
  apply (getlink_picks_empty_url (answering "") (message "U1" "!getlink")
           (Links.start {| rows := [(4%Z, ""); (5%Z, "http://b/feed")]; seq := 5 |})
           4); reflexivity.
Defined.

Lemma getlink_on_empty_table_witness :
  Links.getRandomHyperlink unreachable (Links.start no_rows)
  = (inr "", Links.emit Query_SELECT_random (Links.start no_rows)) /\
  Links.handleMessage unreachable (message "U1" " !getlink") (Links.start no_rows)
  = Links.slackSendMessage (Channel (message "U1" " !getlink"))
      "No hyperlinks available"
      (Links.emit Query_SELECT_random (Links.start no_rows)).
Proof.
  apply (getlink_on_empty_table unreachable (message "U1" " !getlink")
           (Links.start no_rows)); reflexivity.
Defined.

(** X18: [!summarize] of this program, once a link with a URL that is not empty
    is picked: when the feed cannot be fetched or has no item, the error
    is the reply and the endpoint is not asked; when it has items, the
    endpoint is asked once, to summarize title and description of the
    first, and its answer is sent under the URL. Either way the link is
    gone from the table. *)
Theorem Links_summarize (w : World) (event : MessageEvent) (s : Links.State)
    (id : Z) (url : string) :
  TrimSpace (Text event) = "!summarize" ->
  queryErr w = None -> execErr w = None ->
  SELECT_random (random w) (Links.db s) = Some (id, url) -> url <> "" ->
  let s' := Links.handleMessage w event s in
  Links.db s' = DELETE_url url (Links.db s) /\
  match feed w with
  | FeedError e =>
      requests (Links.trace s') = requests (Links.trace s) /\
      posts (Links.trace s')
      = posts (Links.trace s) ++ [(Channel event, "Error fetching article: " +:+ e)]
  | Feed [] =>
      requests (Links.trace s') = requests (Links.trace s) /\
      posts (Links.trace s')
      = posts (Links.trace s)
        ++ [(Channel event, "Error fetching article: " +:+ "no items found in the feed")]
  | Feed (item :: _) =>
      requests (Links.trace s')
      = requests (Links.trace s)
        ++ ["Summarize this article: "
            +:+ ("Title: " +:+ Title item +:+ LF +:+ LF +:+ "Description: "
                 +:+ Description item)] /\
      exists summary,
        posts (Links.trace s')
        = posts (Links.trace s)
          ++ [(Channel event,
               "Summary of article from " +:+ url +:+ ":" +:+ LF +:+ LF +:+ summary)]
  end.
Proof.
  intros Htext Hq Hx Hsel Hurl. cbn zeta.
  unfold Links.handleMessage, Links.getRandomHyperlink, Links.fetchRSS,
    Links.PerplexityAPI.
  rewrite Htext, Hq, Hx. eval_tests.
  cbn [Links.db Links.emit]. rewrite Hsel.
  apply String.eqb_neq in Hurl. rewrite Hurl.
  destruct (feed w) as [e|[|item rest]].
  - trace_simpl. now repeat split.
  - trace_simpl. now repeat split.
  - repeat case_match; simplify_eq; trace_simpl;
      (split; [reflexivity|]); (split; [reflexivity|]); eexists; reflexivity.
Qed.

Lemma Links_summarize_witness :
  let s' := Links.handleMessage failing_feed (message "U1" "!summarize")
              (Links.start one_link) in
  Links.db s' = DELETE_url "http://a/feed" (Links.db (Links.start one_link)) /\
  match feed failing_feed with
  | FeedError e =>
      requests (Links.trace s') = requests (Links.trace (Links.start one_link)) /\
      posts (Links.trace s')
      = posts (Links.trace (Links.start one_link))
        ++ [(Channel (message "U1" "!summarize"), "Error fetching article: " +:+ e)]
  | Feed [] =>
      requests (Links.trace s') = requests (Links.trace (Links.start one_link)) /\
      posts (Links.trace s')
      = posts (Links.trace (Links.start one_link))
        ++ [(Channel (message "U1" "!summarize"),
             "Error fetching article: " +:+ "no items found in the feed")]
  | Feed (item :: _) =>
      requests (Links.trace s')
      = requests (Links.trace (Links.start one_link))
        ++ ["Summarize this article: "
            +:+ ("Title: " +:+ Title item +:+ LF +:+ LF +:+ "Description: "
                 +:+ Description item)] /\
      exists summary,
        posts (Links.trace s')
        = posts (Links.trace (Links.start one_link))
          ++ [(Channel (message "U1" "!summarize"),
               "Summary of article from " +:+ "http://a/feed" +:+ ":" +:+ LF +:+ LF
               +:+ summary)]
  end.
Proof.
  apply (Links_summarize failing_feed (message "U1" "!summarize")
           (Links.start one_link) 7 "http://a/feed");
    try reflexivity. discriminate.
Defined.

(** X19: [!listlinks] reads the table and leaves it as it is; the reply is the
    fixed text for an empty table, and otherwise the header and every URL
    on a line of its own, in row order. *)
Theorem Links_listlinks (w : World) (event : MessageEvent) (s : Links.State) :
  TrimSpace (Text event) = "!listlinks" -> queryErr w = None ->
  Links.db (Links.handleMessage w event s) = Links.db s /\
  posts (Links.trace (Links.handleMessage w event s))
  = posts (Links.trace s)
    ++ [(Channel event,
         match rows (Links.db s) with
         | [] => "No hyperlinks saved"
         | _ :: _ => "Saved hyperlinks:" +:+ LF +:+ Join (SELECT_all (Links.db s)) LF
         end)].
Proof.
  intros Htext Hq. unfold Links.handleMessage, Links.getAllHyperlinks.
  rewrite Htext, Hq. eval_tests. cbn [Links.db Links.emit].
  unfold SELECT_all. destruct (rows (Links.db s)) as [|r l];
    cbn [fmap list_fmap length Nat.eqb]; trace_simpl; split; reflexivity.
Qed.

Lemma Links_listlinks_witness :
  Links.db (Links.handleMessage unreachable (message "U1" "!listlinks ")
              (Links.start two_links_one_url))
  = Links.db (Links.start two_links_one_url) /\
  posts (Links.trace (Links.handleMessage unreachable (message "U1" "!listlinks ")
                        (Links.start two_links_one_url)))
  = posts (Links.trace (Links.start two_links_one_url))
    ++ [(Channel (message "U1" "!listlinks "),
         match rows (Links.db (Links.start two_links_one_url)) with
         | [] => "No hyperlinks saved"
         | _ :: _ =>
             "Saved hyperlinks:" +:+ LF
             +:+ Join (SELECT_all (Links.db (Links.start two_links_one_url))) LF
         end)].
Proof.
  apply (Links_listlinks unreachable (message "U1" "!listlinks ")
           (Links.start two_links_one_url)); reflexivity.
Defined.

(** X20: [!perplexity]: whatever follows the word, as it stands, is the query
    of the one request made; the reply is the content found in the answer,
    a fixed text when the body cannot be decoded or lacks the content, and
    the error when the request fails. The table is not touched. *)
Theorem Links_perplexity (w : World) (event : MessageEvent) (s : Links.State) :
  HasPrefix (TrimSpace (Text event)) "!perplexity" = true ->
  let query := TrimPrefix (TrimSpace (Text event)) "!perplexity" in
  let s' := Links.handleMessage w event s in
  TrimSpace (Text event) = "!perplexity" +:+ query /\
  requests (Links.trace s') = requests (Links.trace s) ++ [query] /\
  posts (Links.trace s')
  = posts (Links.trace s)
    ++ [(Channel event,
         match http w with
         | DoError e => "Error: " +:+ e
         | Response _ (inl _) => "No response from Perplexity API"
         | Response _ (inr result) =>
             default "No response from Perplexity API" (content_path result)
         end)] /\
  Links.db s' = Links.db s.
Proof.
  intros Hp. cbn zeta. split; [now apply HasPrefix_split|].
  unfold Links.handleMessage, Links.PerplexityAPI. rewrite Hp.
  change Links.content_of with content_path.
  destruct (http w) as [e|readErr [e|result]]; cbn [content_path jget];
    [| |destruct (content_path result)]; trace_simpl; now repeat split.
Qed.

Lemma Links_perplexity_witness :
  let query := TrimPrefix (TrimSpace (Text (message "U1" "!perplexity, hi"))) "!perplexity" in
  let s' := Links.handleMessage odd_choice (message "U1" "!perplexity, hi")
              (Links.start no_rows) in
  TrimSpace (Text (message "U1" "!perplexity, hi")) = "!perplexity" +:+ query /\
  requests (Links.trace s') = requests (Links.trace (Links.start no_rows)) ++ [query] /\
  posts (Links.trace s')
  = posts (Links.trace (Links.start no_rows))
    ++ [(Channel (message "U1" "!perplexity, hi"),
         match http odd_choice with
         | DoError e => "Error: " +:+ e
         | Response _ (inl _) => "No response from Perplexity API"
         | Response _ (inr result) =>
             default "No response from Perplexity API" (content_path result)
         end)] /\
  Links.db s' = Links.db (Links.start no_rows).
Proof.
  apply (Links_perplexity odd_choice (message "U1" "!perplexity, hi")
           (Links.start no_rows)).
  reflexivity.
Defined.

(** X21: [handleMessage] keeps the ids of the table unique and at most the
    sequence value, which does not go down. *)
Theorem handleMessage_keeps_ids (w : World) (event : MessageEvent) (s : Links.State) :
  table_ok (Links.db s) ->
  table_ok (Links.db (Links.handleMessage w event s)) /\
  (seq (Links.db s) <= seq (Links.db (Links.handleMessage w event s)))%Z.
Proof.
  intros Hok.
  unfold Links.handleMessage, Links.PerplexityAPI, Links.saveHyperlink,
    Links.getRandomHyperlink, Links.getAllHyperlinks, Links.fetchRSS.
  repeat case_match; simplify_eq; trace_simpl; cbn [DELETE_url seq];
    auto using INSERT_ok, DELETE_url_ok, table_ok_refl_le, INSERT_seq.
Qed.

Lemma handleMessage_keeps_ids_witness :
  table_ok (Links.db (Links.handleMessage (answering "") (message "U1" "!getlink")
                        (Links.start two_links_one_url))) /\
  (seq (Links.db (Links.start two_links_one_url))
   <= seq (Links.db (Links.handleMessage (answering "") (message "U1" "!getlink")
                       (Links.start two_links_one_url))))%Z.
Proof.
  apply (handleMessage_keeps_ids (answering "") (message "U1" "!getlink")
           (Links.start two_links_one_url)).
  exact two_links_one_url_ok.
Defined.

(** ** src/main.go, second program *)

(** X22: Once a text of a user has been handled with an answer that has a
    choice, the text is the one recorded for that user, and the same text
    from the same user is sent to the endpoint again but gets no message
    back, whatever the endpoint answers. *)
Theorem onMessage_repeat_unanswered (key : string) (r : PerUser.Reply)
    (content : string) (others : list string) (ev : MessageEvent)
    (s : PerUser.State) :
  BotID ev = "" -> key <> "" ->
  exists s1 s2,
    PerUser.onMessage key (PerUser.Choices (content :: others)) ev s = Done s1 /\
    PerUser.last (User ev) s1 = Text ev /\
    PerUser.onMessage key r ev s1 = Done s2 /\
    posts (PerUser.trace s2) = posts (PerUser.trace s1) /\
    requests (PerUser.trace s2) = requests (PerUser.trace s1) ++ [Text ev] /\
    PerUser.lastMessage s2 = PerUser.lastMessage s1.
Proof.
  intros Hbot Hkey. apply String.eqb_neq in Hkey.
  assert (forall s1, PerUser.last (User ev) s1 = Text ev ->
            exists s2, PerUser.onMessage key r ev s1 = Done s2 /\
              posts (PerUser.trace s2) = posts (PerUser.trace s1) /\
              requests (PerUser.trace s2) = requests (PerUser.trace s1) ++ [Text ev] /\
              PerUser.lastMessage s2 = PerUser.lastMessage s1) as Hsecond.
  { intros s1 Hlast. unfold PerUser.onMessage. rewrite Hbot, Hkey. cbn [String.eqb negb].
    unfold PerUser.last in *. cbn [PerUser.emit PerUser.lastMessage].
    rewrite Hlast, String.eqb_refl. cbn [negb].
    destruct r as [e|e|contents]; eexists; (split; [reflexivity|]);
      trace_simpl; rewrite ?app_nil_r; now repeat split. }
  unfold PerUser.onMessage at 1. rewrite Hbot, Hkey. cbn [String.eqb negb].
  destruct (String.eqb_spec (Text ev)
              (PerUser.last (User ev) (PerUser.emit (CompletionRequest (Text ev)) s)))
    as [Heq|Hne]; cbn [negb].
  - eexists. destruct (Hsecond (PerUser.emit (CompletionRequest (Text ev)) s))
      as (s2 & H2); [now symmetry|].
    exists s2. split; [reflexivity|]. split; [now symmetry|]. exact H2.
  - eexists.
    edestruct Hsecond as (s2 & H2); [|exists s2; split; [reflexivity|]; split; [|exact H2]].
    + unfold PerUser.last. cbn [PerUser.lastMessage].
      now rewrite lookup_insert_eq.
    + unfold PerUser.last. cbn [PerUser.lastMessage].
      now rewrite lookup_insert_eq.
Qed.

Lemma onMessage_repeat_unanswered_witness :
  exists s1 s2,
    PerUser.onMessage "key" (PerUser.Choices ("Hi!" :: [])) (message "U1" "hello")
      PerUser.start = Done s1 /\
    PerUser.last (User (message "U1" "hello")) s1 = Text (message "U1" "hello") /\
    PerUser.onMessage "key" (PerUser.Choices ["Hi again!"]) (message "U1" "hello") s1
      = Done s2 /\
    posts (PerUser.trace s2) = posts (PerUser.trace s1) /\
    requests (PerUser.trace s2)
    = requests (PerUser.trace s1) ++ [Text (message "U1" "hello")] /\
    PerUser.lastMessage s2 = PerUser.lastMessage s1.
Proof.
  apply (onMessage_repeat_unanswered "key" (PerUser.Choices ["Hi again!"])
           "Hi!" [] (message "U1" "hello") PerUser.start).
  - reflexivity.
  - discriminate.
Defined.

(** X23: A user the map does not know yet is taken to have said the empty
    string: their empty text is sent to the endpoint and the answer is
    dropped, and no entry is made for them. *)
Theorem onMessage_first_empty_text (key : string) (r : PerUser.Reply)
    (ev : MessageEvent) (s : PerUser.State) :
  BotID ev = "" -> key <> "" ->
  PerUser.lastMessage s !! User ev = None -> Text ev = "" ->
  exists s',
    PerUser.onMessage key r ev s = Done s' /\
    requests (PerUser.trace s') = requests (PerUser.trace s) ++ [""] /\
    posts (PerUser.trace s') = posts (PerUser.trace s) /\
    PerUser.lastMessage s' = PerUser.lastMessage s.
Proof.
  intros Hbot Hkey Hnew Htext. apply String.eqb_neq in Hkey.
  unfold PerUser.onMessage, PerUser.last. rewrite Hbot, Hkey, Htext.
  cbn [String.eqb negb PerUser.emit PerUser.lastMessage]. rewrite Hnew.
  cbn [default String.eqb negb].
  destruct r as [e|e|contents]; eexists; (split; [reflexivity|]);
    trace_simpl; rewrite ?app_nil_r; now repeat split.
Qed.

Lemma onMessage_first_empty_text_witness :
  exists s',
    PerUser.onMessage "key" (PerUser.Choices ["Hi!"]) (message "UA" "") ub_said_x
      = Done s' /\
    requests (PerUser.trace s') = requests (PerUser.trace ub_said_x) ++ [""] /\
    posts (PerUser.trace s') = posts (PerUser.trace ub_said_x) /\
    PerUser.lastMessage s' = PerUser.lastMessage ub_said_x.
Proof.
  apply (onMessage_first_empty_text "key" (PerUser.Choices ["Hi!"])
           (message "UA" "") ub_said_x).
  - reflexivity.
  - discriminate.
  - reflexivity.
  - reflexivity.
Defined.

(** ** src/main.go, third program *)

Ltac trace_simpl3 :=
  cbn [Interactive.trace Interactive.emit Interactive.slackSendMessage
       Interactive.set_db Interactive.db];
  rewrite ?posts_snoc, ?requests_snoc, ?inserts_snoc, ?app_nil_r, <- ?app_assoc;
  cbn [app].

(** X24: A callback of type message gets one message back on its channel, for
    every text and whatever fails; a callback of another type is ignored. *)
Theorem handleSlackEvent_replies (a : Interactive.Answer) (w : World)
    (callback : Interactive.InteractionCallback) (s : Interactive.State) :
  match Interactive.Type_ callback with
  | Interactive.InteractionTypeMessage =>
      exists reply,
        posts (Interactive.trace (Interactive.handleSlackEvent a w callback s))
        = posts (Interactive.trace s) ++ [(Interactive.ChannelID callback, reply)]
  | Interactive.InteractionTypeOther _ =>
      Interactive.handleSlackEvent a w callback s = s
  end.
Proof.
  unfold Interactive.handleSlackEvent, Interactive.listAllLinks,
    Interactive.fetchRandomLink, Interactive.storage, Interactive.fetchRSSSummary,
    Interactive.PerplexityAPI.
  destruct (Interactive.Type_ callback); [|reflexivity].
  repeat case_match; simplify_eq; eexists; trace_simpl3; reflexivity.
Qed.

(** X25: A text that is none of the four commands goes to the endpoint as it
    is, not trimmed, each time it comes: this program remembers no input.
    The reply is the content of the answer, or the error. *)
Theorem handleSlackEvent_default (a : Interactive.Answer) (w : World)
    (callback : Interactive.InteractionCallback) (s : Interactive.State) :
  let messageText := Interactive.MessageText callback in
  Interactive.Type_ callback = Interactive.InteractionTypeMessage ->
  messageText <> "!listlinks" -> messageText <> "!randomlink" ->
  HasPrefix messageText "!save " = false -> HasPrefix messageText "!rss " = false ->
  let s' := Interactive.handleSlackEvent a w callback s in
  requests (Interactive.trace s') = requests (Interactive.trace s) ++ [messageText] /\
  posts (Interactive.trace s')
  = posts (Interactive.trace s)
    ++ [(Interactive.ChannelID callback,
         match a with
         | Interactive.Failed e => "Error communicating with Perplexity API: " +:+ e
         | Interactive.Answered content => content
         end)] /\
  Interactive.db s' = Interactive.db s.
Proof.
  cbn zeta. intros Htype Hl Hr Hsave Hrss.
  unfold Interactive.handleSlackEvent, Interactive.PerplexityAPI.
  apply String.eqb_neq in Hl, Hr. rewrite Htype, Hl, Hr, Hsave, Hrss.
  destruct a; trace_simpl3; now repeat split.
Qed.

Lemma handleSlackEvent_default_witness :
  let messageText := Interactive.MessageText (said " hello ") in
  let s' := Interactive.handleSlackEvent (Interactive.Answered "Hi!") unreachable
              (said " hello ") (Interactive.start no_rows) in
  requests (Interactive.trace s')
  = requests (Interactive.trace (Interactive.start no_rows)) ++ [messageText] /\
  posts (Interactive.trace s')
  = posts (Interactive.trace (Interactive.start no_rows))
    ++ [(Interactive.ChannelID (said " hello "),
         match Interactive.Answered "Hi!" with
         | Interactive.Failed e => "Error communicating with Perplexity API: " +:+ e
         | Interactive.Answered content => content
         end)] /\
  Interactive.db s' = Interactive.db (Interactive.start no_rows).
Proof.
  apply (handleSlackEvent_default (Interactive.Answered "Hi!") unreachable
           (said " hello ") (Interactive.start no_rows));
    try reflexivity; discriminate.
Defined.

(** X26: [!save ] with anything after it, also nothing: what follows the prefix
    is stored as it stands, as the last row and under a new id, and the
    reply repeats it. The text is not trimmed, so that [!save ] alone stores
    the empty string. *)
Theorem handleSlackEvent_save (a : Interactive.Answer) (w : World)
    (callback : Interactive.InteractionCallback) (s : Interactive.State) :
  let messageText := Interactive.MessageText callback in
  let url := TrimPrefix messageText "!save " in
  Interactive.Type_ callback = Interactive.InteractionTypeMessage ->
  HasPrefix messageText "!save " = true ->
  execErr w = None ->
  let s' := Interactive.handleSlackEvent a w callback s in
  messageText = "!save " +:+ url /\
  rows (Interactive.db s')
  = rows (Interactive.db s) ++ [((seq (Interactive.db s) + 1)%Z, url)] /\
  posts (Interactive.trace s')
  = posts (Interactive.trace s)
    ++ [(Interactive.ChannelID callback, "Link saved: " +:+ url)].
Proof.
  cbn zeta. intros Htype Hsave Hx. split; [now apply HasPrefix_split|].
  unfold Interactive.handleSlackEvent, Interactive.storage. rewrite Htype.
  destruct (String.eqb_spec (Interactive.MessageText callback) "!listlinks") as [E|_];
    [rewrite E in Hsave; discriminate Hsave|].
  destruct (String.eqb_spec (Interactive.MessageText callback) "!randomlink") as [E|_];
    [rewrite E in Hsave; discriminate Hsave|].
  rewrite Hsave, Hx. trace_simpl3. split; reflexivity.
Qed.

Lemma handleSlackEvent_save_witness :
  let messageText := Interactive.MessageText (said "!save ") in
  let url := TrimPrefix messageText "!save " in
  let s' := Interactive.handleSlackEvent (Interactive.Answered "") unreachable
              (said "!save ") (Interactive.start one_link) in
  messageText = "!save " +:+ url /\
  rows (Interactive.db s')
  = rows (Interactive.db (Interactive.start one_link))
    ++ [((seq (Interactive.db (Interactive.start one_link)) + 1)%Z, url)] /\
  posts (Interactive.trace s')
  = posts (Interactive.trace (Interactive.start one_link))
    ++ [(Interactive.ChannelID (said "!save "), "Link saved: " +:+ url)].
Proof.
  apply (handleSlackEvent_save (Interactive.Answered "") unreachable
           (said "!save ") (Interactive.start one_link)); reflexivity.
Defined.

(** X27: [!randomlink] on an empty table: the error of [Scan] is the reply. *)
Theorem randomlink_on_empty_table (a : Interactive.Answer) (w : World)
    (callback : Interactive.InteractionCallback) (s : Interactive.State) :
  Interactive.Type_ callback = Interactive.InteractionTypeMessage ->
  Interactive.MessageText callback = "!randomlink" ->
  queryErr w = None -> rows (Interactive.db s) = [] ->
  let s' := Interactive.handleSlackEvent a w callback s in
  posts (Interactive.trace s')
  = posts (Interactive.trace s)
    ++ [(Interactive.ChannelID callback,
         "Error fetching random link: " +:+ "sql: no rows in result set")] /\
  Interactive.db s' = Interactive.db s.
Proof.
  cbn zeta. intros Htype Htext Hq Hrows.
  unfold Interactive.handleSlackEvent, Interactive.fetchRandomLink.
  rewrite Htype, Htext, Hq. eval_tests. cbn [Interactive.db Interactive.emit].
  rewrite (proj2 (SELECT_random_None (random w) (Interactive.db s)) Hrows).
  trace_simpl3. split; reflexivity.
Qed.

Lemma randomlink_on_empty_table_witness :
  let s' := Interactive.handleSlackEvent (Interactive.Answered "") unreachable
              (said "!randomlink") (Interactive.start no_rows) in
  posts (Interactive.trace s')
  = posts (Interactive.trace (Interactive.start no_rows))
    ++ [(Interactive.ChannelID (said "!randomlink"),
         "Error fetching random link: " +:+ "sql: no rows in result set")] /\
  Interactive.db s' = Interactive.db (Interactive.start no_rows).
Proof.
  apply (randomlink_on_empty_table (Interactive.Answered "") unreachable
           (said "!randomlink") (Interactive.start no_rows)); reflexivity.
Defined.

Section Append.

Lemma append_nil_r (s : string) : s +:+ "" = s.
Proof.
  induction s as [|c s IH]; [reflexivity|].
  change (String c s +:+ "") with (String c (s +:+ "")). now rewrite IH.
Qed.

Lemma append_assoc (s t u : string) : (s +:+ t) +:+ u = s +:+ (t +:+ u).
Proof.
  induction s as [|c s IH]; [reflexivity|].
  change (String c ((s +:+ t) +:+ u) = String c (s +:+ (t +:+ u))).
  now rewrite IH.
Qed.

Lemma summary_of_entries (items : list Item) (summary : string) :
  Interactive.summary_of items summary
  = summary +:+ foldr (fun item rest => entry item +:+ rest) "" items.
Proof.
  revert summary. induction items as [|item items IH]; intros summary.
  - cbn. now rewrite append_nil_r.
  - cbn [Interactive.summary_of foldr]. rewrite IH.
    fold (entry item). now rewrite append_assoc.
Qed.

End Append.

(** X28: [!rss url] lists every item of the feed, title and link, in the order
    of the feed; a feed without items is no error and gives the header
    alone. The URL is what follows the prefix. *)
Theorem handleSlackEvent_rss (a : Interactive.Answer) (w : World)
    (callback : Interactive.InteractionCallback) (s : Interactive.State)
    (items : list Item) :
  let messageText := Interactive.MessageText callback in
  Interactive.Type_ callback = Interactive.InteractionTypeMessage ->
  HasPrefix messageText "!rss " = true ->
  feed w = Feed items ->
  let s' := Interactive.handleSlackEvent a w callback s in
  Interactive.trace s'
  = Interactive.trace s
    ++ [ParseURL (TrimPrefix messageText "!rss ");
        PostMessage (Interactive.ChannelID callback)
          ("RSS Summary:" +:+ LF
           +:+ foldr (fun item rest => entry item +:+ rest) "" items)].
Proof.
  cbn zeta. intros Htype Hrss Hfeed.
  unfold Interactive.handleSlackEvent, Interactive.fetchRSSSummary. rewrite Htype.
  destruct (String.eqb_spec (Interactive.MessageText callback) "!listlinks") as [E|_];
    [rewrite E in Hrss; discriminate Hrss|].
  destruct (String.eqb_spec (Interactive.MessageText callback) "!randomlink") as [E|_];
    [rewrite E in Hrss; discriminate Hrss|].
  destruct (HasPrefix (Interactive.MessageText callback) "!save ") eqn:Hsave.
  { apply HasPrefix_split in Hsave. rewrite Hsave in Hrss. discriminate Hrss. }
  rewrite Hrss, Hfeed, summary_of_entries.
  cbn [Interactive.trace Interactive.emit Interactive.slackSendMessage].
  now rewrite <- app_assoc.
Qed.

Lemma handleSlackEvent_rss_witness :
  let messageText := Interactive.MessageText (said "!rss http://a/feed") in
  let s' := Interactive.handleSlackEvent (Interactive.Answered "") two_items
              (said "!rss http://a/feed") (Interactive.start no_rows) in
  Interactive.trace s'
  = Interactive.trace (Interactive.start no_rows)
    ++ [ParseURL (TrimPrefix messageText "!rss ");
        PostMessage (Interactive.ChannelID (said "!rss http://a/feed"))
          ("RSS Summary:" +:+ LF
           +:+ foldr (fun item rest => entry item +:+ rest) ""
                 [ {| Title := "One"; Description := "first"; Link := "http://a/1" |};
                   {| Title := "Two"; Description := "second"; Link := "http://a/2" |} ])].
Proof.
  apply (handleSlackEvent_rss (Interactive.Answered "") two_items
           (said "!rss http://a/feed") (Interactive.start no_rows)); reflexivity.
Defined.

(** ** part_000: a text sent again and again *)



